(** * NoteEditor: the auto-saving note editor component

    A shallow embedding of [src/app/components/NoteEditor.jsx].  The React
    function component is modelled as a state machine: the hook cells
    ([useState], [useRef]) are fields of a record, every handler, effect and
    asynchronous continuation of the component is a computation in a small
    state / exception / log monad, and the events of the browser (typing, the
    clock, network completions, unmount) drive a step function.  Everything
    the component does to the outside world (network requests, calls of the
    parent's callbacks, calls of the state setters, console output) is
    recorded, in order, in the log. *)

From Stdlib Require Import String List Bool Arith Lia.
Import ListNotations.
Local Open Scope string_scope.
Local Open Scope list_scope.

(** ** JavaScript values *)

(** Truthiness of a string: only the empty string is falsy. *)
Definition truthy (s : string) : bool := negb (String.eqb s "").

(** Truthiness of an optional string ([undefined] is falsy). *)
Definition truthyOpt (o : option string) : bool :=
  match o with
  | Some s => truthy s
  | None => false
  end.

(** [o || ""] for an optional string. *)
Definition orEmpty (o : option string) : string :=
  match o with
  | Some s => if truthy s then s else ""
  | None => ""
  end.

Definition isSome {A : Type} (o : option A) : bool :=
  match o with
  | Some _ => true
  | None => false
  end.

(** ** Props *)

(** A function handed down by the parent; the component only ever tests it
    for presence and calls it. *)
Inductive Callback : Type :=
| Cb (name : string).

Record InitialData : Type := {
  initTitle : option string;
  initContent : option string
}.

Record Props : Type := {
  noteId : option string;
  initialData : option InitialData;
  logoTextProp : option string;
  onContentChange : option Callback;
  onTitleChange : option Callback;
  isDisabledProp : option bool
}.

(** [logoText = "NoteSpace"] in the parameter list. *)
Definition logoText (p : Props) : string :=
  match logoTextProp p with
  | Some s => s
  | None => "NoteSpace"
  end.

(** [isDisabled = false] in the parameter list. *)
Definition isDisabled (p : Props) : bool :=
  match isDisabledProp p with
  | Some b => b
  | None => false
  end.

(** [onContentChange: onHomepageContentChange] in the parameter list: the
    destructuring pattern reads the property [onContentChange] a second time,
    so this binding holds the same function as [onContentChange]. *)
Definition onHomepageContentChange (p : Props) : option Callback :=
  onContentChange p.

Definition hasNoteId (p : Props) : bool := truthyOpt (noteId p).

(** The template literal [`/api/note/${noteId}`]. *)
Definition noteUrl (p : Props) : string :=
  "/api/note/" ++ match noteId p with
                  | Some s => s
                  | None => "undefined"
                  end.

(** ** The outside world *)

Module Body.
(** The object handed to [JSON.stringify] in [saveNote]. *)
Record t : Type := {
  content : string;
  title : string;
  logoText : string
}.
End Body.

Inductive Method : Type :=
| GET
| PUT.

Record Request : Type := {
  method : Method;
  url : string;
  headers : list (string * string);
  body : option Body.t
}.

Inductive Exn : Type :=
| NetworkError
| SyntaxError
| TypeError.

(** What the component does, in the order it does it. *)
Inductive Action : Type :=
| Fetch (r : Request)
| Invoke (f : Callback) (args : list string)
| ConsoleError (msg : string) (e : Exn)
| Resize
| SetValue (v : string)
| SetTitle (v : string)
| SetIsLoading (b : bool)
| SetIsSaving (b : bool).

(** The note record of the response [{success, data: {title, content}}];
    every member may be missing. *)
Record NoteData : Type := {
  dataTitle : option string;
  dataContent : option string
}.

Record ApiResponse : Type := {
  success : option bool;
  data : option NoteData
}.

(** How the two awaits of [loadNote] end: [fetch] rejects, [res.json()]
    rejects, or a parsed response arrives.  The two awaits follow each other
    with no read of component state in between, so they are taken as one
    completion. *)
Inductive LoadOutcome : Type :=
| FetchRejected
| JsonRejected
| JsonParsed (r : ApiResponse).

(** How the single await of [saveNote] ends (the response is ignored). *)
Inductive FetchOutcome : Type :=
| Resolved
| Rejected.

(** ** The debounce helper *)

Module Debounce.
(** Modelled from the spec: [debounce] of [lib/utils], which is imported by
    the component but is not part of the sources at hand.  The spec
    describes it as a cancellable deferred task: each new trigger cancels or
    replaces the pending task of that instance and arms a fresh timer of the
    given delay; when the quiet period has elapsed the callback runs once,
    with the arguments of the last trigger (trailing edge). *)
Record t (A : Type) : Type := {
  wait : nat;
  pending : option (nat * A)
}.
Arguments wait {A} _.
Arguments pending {A} _.

(** Modelled from the spec: [debounce(func, wait)] makes a fresh instance
    with nothing pending. *)
Definition make {A : Type} (w : nat) : t A :=
  {| wait := w; pending := None |}.

(** Modelled from the spec: calling the debounced function at time [now]
    with [args] replaces whatever was pending and arms a fresh timer. *)
Definition call {A : Type} (now : nat) (args : A) (d : t A) : t A :=
  {| wait := wait d; pending := Some (now + wait d, args) |}.

(** Modelled from the spec: once the quiet period is over the callback is
    due, with the arguments of the last call. *)
Definition due {A : Type} (now : nat) (d : t A) : option A :=
  match pending d with
  | Some (deadline, args) => if Nat.leb deadline now then Some args else None
  | None => None
  end.

(** When the pending task, if any, is due. *)
Definition deadline {A : Type} (d : t A) : option nat :=
  match pending d with
  | Some (t, _) => Some t
  | None => None
  end.

(** Modelled from the spec: the timer has fired; nothing is pending. *)
Definition clear {A : Type} (d : t A) : t A :=
  {| wait := wait d; pending := None |}.
End Debounce.

(** ** Component state *)

Record State : Type := {
  (** [useState] cells *)
  value : string;
  title : string;
  isLoading : bool;
  isSaving : bool;
  (** [isMounted.current] *)
  isMounted : bool;
  (** the [logoText] binding of the latest render *)
  logo : string;
  (** the runtime's view: the instance is still in the tree *)
  mounted : bool;
  (** the clock, in milliseconds since mount *)
  now : nat;
  (** the memoised debounced functions *)
  debouncedSave : Debounce.t (string * string * string);
  debouncedContentChange : Debounce.t (string * string);
  (** requests whose promise has not settled yet *)
  loadInFlight : bool;
  savesInFlight : nat
}.

Definition withValue (v : string) (st : State) : State :=
  {| value := v; title := title st; isLoading := isLoading st;
     isSaving := isSaving st; isMounted := isMounted st; logo := logo st;
     mounted := mounted st; now := now st;
     debouncedSave := debouncedSave st;
     debouncedContentChange := debouncedContentChange st;
     loadInFlight := loadInFlight st; savesInFlight := savesInFlight st |}.

Definition withTitle (v : string) (st : State) : State :=
  {| value := value st; title := v; isLoading := isLoading st;
     isSaving := isSaving st; isMounted := isMounted st; logo := logo st;
     mounted := mounted st; now := now st;
     debouncedSave := debouncedSave st;
     debouncedContentChange := debouncedContentChange st;
     loadInFlight := loadInFlight st; savesInFlight := savesInFlight st |}.

Definition withIsLoading (b : bool) (st : State) : State :=
  {| value := value st; title := title st; isLoading := b;
     isSaving := isSaving st; isMounted := isMounted st; logo := logo st;
     mounted := mounted st; now := now st;
     debouncedSave := debouncedSave st;
     debouncedContentChange := debouncedContentChange st;
     loadInFlight := loadInFlight st; savesInFlight := savesInFlight st |}.

Definition withIsSaving (b : bool) (st : State) : State :=
  {| value := value st; title := title st; isLoading := isLoading st;
     isSaving := b; isMounted := isMounted st; logo := logo st;
     mounted := mounted st; now := now st;
     debouncedSave := debouncedSave st;
     debouncedContentChange := debouncedContentChange st;
     loadInFlight := loadInFlight st; savesInFlight := savesInFlight st |}.

Definition withLogo (l : string) (st : State) : State :=
  {| value := value st; title := title st; isLoading := isLoading st;
     isSaving := isSaving st; isMounted := isMounted st; logo := l;
     mounted := mounted st; now := now st;
     debouncedSave := debouncedSave st;
     debouncedContentChange := debouncedContentChange st;
     loadInFlight := loadInFlight st; savesInFlight := savesInFlight st |}.

Definition withNow (t : nat) (st : State) : State :=
  {| value := value st; title := title st; isLoading := isLoading st;
     isSaving := isSaving st; isMounted := isMounted st; logo := logo st;
     mounted := mounted st; now := t;
     debouncedSave := debouncedSave st;
     debouncedContentChange := debouncedContentChange st;
     loadInFlight := loadInFlight st; savesInFlight := savesInFlight st |}.

Definition withDebouncedSave (d : Debounce.t (string * string * string))
    (st : State) : State :=
  {| value := value st; title := title st; isLoading := isLoading st;
     isSaving := isSaving st; isMounted := isMounted st; logo := logo st;
     mounted := mounted st; now := now st;
     debouncedSave := d;
     debouncedContentChange := debouncedContentChange st;
     loadInFlight := loadInFlight st; savesInFlight := savesInFlight st |}.

Definition withDebouncedContentChange (d : Debounce.t (string * string))
    (st : State) : State :=
  {| value := value st; title := title st; isLoading := isLoading st;
     isSaving := isSaving st; isMounted := isMounted st; logo := logo st;
     mounted := mounted st; now := now st;
     debouncedSave := debouncedSave st;
     debouncedContentChange := d;
     loadInFlight := loadInFlight st; savesInFlight := savesInFlight st |}.

Definition withLoadInFlight (b : bool) (st : State) : State :=
  {| value := value st; title := title st; isLoading := isLoading st;
     isSaving := isSaving st; isMounted := isMounted st; logo := logo st;
     mounted := mounted st; now := now st;
     debouncedSave := debouncedSave st;
     debouncedContentChange := debouncedContentChange st;
     loadInFlight := b; savesInFlight := savesInFlight st |}.

Definition withSavesInFlight (n : nat) (st : State) : State :=
  {| value := value st; title := title st; isLoading := isLoading st;
     isSaving := isSaving st; isMounted := isMounted st; logo := logo st;
     mounted := mounted st; now := now st;
     debouncedSave := debouncedSave st;
     debouncedContentChange := debouncedContentChange st;
     loadInFlight := loadInFlight st; savesInFlight := n |}.

(** Unmount: the runtime drops the instance and runs the cleanup of the first
    effect, [isMounted.current = false]. *)
Definition unmounted (st : State) : State :=
  {| value := value st; title := title st; isLoading := isLoading st;
     isSaving := isSaving st; isMounted := false; logo := logo st;
     mounted := false; now := now st;
     debouncedSave := debouncedSave st;
     debouncedContentChange := debouncedContentChange st;
     loadInFlight := loadInFlight st; savesInFlight := savesInFlight st |}.

(** ** The monad of handlers *)

Inductive Outcome (A : Type) : Type :=
| Ret (a : A)
| Raise (e : Exn).
Arguments Ret {A} _.
Arguments Raise {A} _.

Definition M (A : Type) : Type := State -> Outcome A * State * list Action.

Definition ret {A : Type} (a : A) : M A := fun st => (Ret a, st, []).

Definition raise {A : Type} (e : Exn) : M A := fun st => (Raise e, st, []).

Definition bind {A B : Type} (m : M A) (k : A -> M B) : M B :=
  fun st =>
    match m st with
    | (Ret a, st1, l1) =>
        match k a st1 with
        | (r, st2, l2) => (r, st2, l1 ++ l2)
        end
    | (Raise e, st1, l1) => (Raise e, st1, l1)
    end.

Notation "x <- m ;; k" := (bind m (fun x => k))
  (at level 61, m at next level, right associativity).
Notation "m ;; k" := (bind m (fun _ => k))
  (at level 61, right associativity).

Definition emit (a : Action) : M unit := fun st => (Ret tt, st, [a]).

Definition gets {A : Type} (f : State -> A) : M A :=
  fun st => (Ret (f st), st, []).

Definition modify (f : State -> State) : M unit :=
  fun st => (Ret tt, f st, []).

(** [if (c) m] *)
Definition when (c : bool) (m : M unit) : M unit :=
  if c then m else ret tt.

(** [try { body } catch (e) { handler e }] *)
Definition tryCatch {A : Type} (body : M A) (handler : Exn -> M A) : M A :=
  fun st =>
    match body st with
    | (Ret a, st1, l1) => (Ret a, st1, l1)
    | (Raise e, st1, l1) =>
        match handler e st1 with
        | (r, st2, l2) => (r, st2, l1 ++ l2)
        end
    end.

(** [try { body } finally { fin }]: [fin] runs on every exit of [body]; an
    exception of [body] goes on after it, unless [fin] raises itself. *)
Definition finally {A : Type} (body : M A) (fin : M unit) : M A :=
  fun st =>
    match body st with
    | (r, st1, l1) =>
        match fin st1 with
        | (Ret _, st2, l2) => (r, st2, l1 ++ l2)
        | (Raise e, st2, l2) => (Raise e, st2, l1 ++ l2)
        end
    end.

(** ** The component *)

Section NoteEditor.

(** The props of the instance.  The parent may hand down a new [logoText]
    later (event [ParentRender]); the other props stay as they are for the
    life of the instance, so the memoised [debouncedSave] (dependency
    [noteId]) and [debouncedContentChange] (dependency [onContentChange])
    are each one debounce instance. *)
Variable p : Props.

(** *** The runtime's part: state setters, [fetch], the console *)

(** A setter called on an instance that has left the tree is dropped by the
    runtime; the call itself is still recorded. *)
Definition setValue (v : string) : M unit :=
  emit (SetValue v) ;;
  modify (fun st => if mounted st then withValue v st else st).

Definition setTitle (v : string) : M unit :=
  emit (SetTitle v) ;;
  modify (fun st => if mounted st then withTitle v st else st).

Definition setIsLoading (b : bool) : M unit :=
  emit (SetIsLoading b) ;;
  modify (fun st => if mounted st then withIsLoading b st else st).

Definition setIsSaving (b : bool) : M unit :=
  emit (SetIsSaving b) ;;
  modify (fun st => if mounted st then withIsSaving b st else st).

(** [fetch(...)] up to the await: the request goes out and its promise is
    pending. *)
Definition fetch (r : Request) : M unit :=
  emit (Fetch r) ;;
  modify (fun st =>
            match method r with
            | GET => withLoadInFlight true st
            | PUT => withSavesInFlight (S (savesInFlight st)) st
            end).

Definition consoleError (msg : string) (e : Exn) : M unit :=
  emit (ConsoleError msg e).

(** *** Rendering *)

Inductive View : Type :=
| LoadingPlaceholder
| ExpiredNotice
| Editor (titleInput : string) (textarea : string) (savingIndicator : bool).

(** The three returns of the component function, in their order. *)
Definition render (st : State) : View :=
  if isLoading st then LoadingPlaceholder
  else if isDisabled p then ExpiredNotice
  else Editor (title st) (value st) (isSaving st).

Definition hasInputs (v : View) : bool :=
  match v with
  | Editor _ _ _ => true
  | _ => false
  end.

(** [textareaRef.current] is set exactly when the textarea is on screen. *)
Definition textareaRef (st : State) : bool :=
  mounted st && hasInputs (render st).

Definition adjustHeight : M unit :=
  textarea <- gets textareaRef ;;
  when textarea (emit Resize).

(** *** Loading *)

Definition getRequest : Request :=
  {| method := GET; url := noteUrl p; headers := []; body := None |}.

(** [loadNote] up to its first await. *)
Definition loadNote : M unit :=
  setIsLoading true ;;
  fetch getRequest.

(** [const res = await fetch(...); const data = await res.json();] *)
Definition awaitJson (r : LoadOutcome) : M ApiResponse :=
  match r with
  | FetchRejected => raise NetworkError
  | JsonRejected => raise SyntaxError
  | JsonParsed resp => ret resp
  end.

(** [data.data.content], [data.data.title]: reading a member of
    [undefined] is a TypeError. *)
Definition member (d : option NoteData) (f : NoteData -> option string)
  : M (option string) :=
  match d with
  | Some n => ret (f n)
  | None => raise TypeError
  end.

(** [loadNote] from the await on: the rest of the [try], the [catch] and
    the [finally]. *)
Definition loadNoteResume (r : LoadOutcome) : M unit :=
  finally
    (tryCatch
       (resp <- awaitJson r ;;
        when (match success resp with Some b => b | None => false end)
          (c <- member (data resp) dataContent ;;
           setValue (orEmpty c) ;;
           t <- member (data resp) dataTitle ;;
           setTitle (orEmpty t)))
       (fun e => consoleError "Failed to load note:" e))
    (setIsLoading false).

(** The effect with dependencies [[noteId, initialData]]. *)
Definition loadEffect : M unit :=
  if negb (hasNoteId p) || isSome (initialData p) then ret tt
  else loadNote.

(** *** Saving *)

Definition putRequest (newContent newTitle newLogo : string) : Request :=
  {| method := PUT;
     url := noteUrl p;
     headers := [("Content-Type", "application/json")];
     body := Some {| Body.content := newContent;
                     Body.title := newTitle;
                     Body.logoText := newLogo |} |}.

Definition awaitFetch (r : FetchOutcome) : M unit :=
  match r with
  | Resolved => ret tt
  | Rejected => raise NetworkError
  end.

(** [saveNote] up to its await. *)
Definition saveNote (newContent newTitle newLogo : string) : M unit :=
  if negb (hasNoteId p) then ret tt
  else
    live <- gets isMounted ;;
    when live (setIsSaving true) ;;
    fetch (putRequest newContent newTitle newLogo).

(** [saveNote] from the await on. *)
Definition saveNoteResume (r : FetchOutcome) : M unit :=
  finally
    (tryCatch (awaitFetch r)
              (fun e => consoleError "Failed to save:" e))
    (live <- gets isMounted ;;
     when live (setIsSaving false)).

(** *** The debounced functions *)

(** Calling [debouncedSave(content, title, logo)]. *)
Definition callDebouncedSave (c t l : string) : M unit :=
  modify (fun st =>
            withDebouncedSave
              (Debounce.call (now st) (c, t, l) (debouncedSave st)) st).

(** Calling [debouncedContentChange(content, title)]. *)
Definition callDebouncedContentChange (c t : string) : M unit :=
  modify (fun st =>
            withDebouncedContentChange
              (Debounce.call (now st) (c, t) (debouncedContentChange st))
              st).

(** The callback wrapped by [debouncedSave]. *)
Definition saveCallback (args : string * string * string) : M unit :=
  match args with
  | (c, t, l) => saveNote c t l
  end.

(** The callback wrapped by [debouncedContentChange]. *)
Definition contentChangeCallback (args : string * string) : M unit :=
  match args with
  | (c, t) =>
      match onContentChange p with
      | Some f => emit (Invoke f [c; t])
      | None => ret tt
      end
  end.

(** *** The effect with dependencies [[value, title, logoText]] *)

Definition editEffect : M unit :=
  adjustHeight ;;
  v <- gets value ;;
  t <- gets title ;;
  l <- gets logo ;;
  loading <- gets isLoading ;;
  match onTitleChange p with
  | Some f => emit (Invoke f [t])
  | None => ret tt
  end ;;
  match onContentChange p with
  | Some f => when (hasNoteId p) (emit (Invoke f [v]))
  | None => ret tt
  end ;;
  when (hasNoteId p && negb loading) (callDebouncedSave v t l) ;;
  when (negb (hasNoteId p) && isSome (onHomepageContentChange p))
    (callDebouncedContentChange v t).

(** *** Mount *)

Definition initialState : State :=
  {| value := match initialData p with
              | Some d => orEmpty (initContent d)
              | None => ""
              end;
     title := match initialData p with
              | Some d => orEmpty (initTitle d)
              | None => ""
              end;
     isLoading := negb (isSome (initialData p)) && hasNoteId p;
     isSaving := false;
     isMounted := true;
     logo := logoText p;
     mounted := true;
     now := 0;
     debouncedSave := Debounce.make 1000;
     debouncedContentChange := Debounce.make 500;
     loadInFlight := false;
     savesInFlight := 0 |}.

(** The effects of the first commit, in the order they are declared (the
    first one only registers its cleanup). *)
Definition mountEffects : M unit :=
  loadEffect ;;
  editEffect.

Definition mount : Outcome unit * State * list Action :=
  mountEffects initialState.

(** *** Events *)

Inductive Event : Type :=
| EditContent (s : string)
| EditTitle (s : string)
| ParentRender (newLogoText : option string)
| Elapse (ms : nat)
| LoadDone (r : LoadOutcome)
| SaveDone (r : FetchOutcome)
| Unmount.

Definition deps (st : State) : string * string * string :=
  (value st, title st, logo st).

Definition depsChanged (before after : State) : bool :=
  negb (String.eqb (value before) (value after)
        && String.eqb (title before) (title after)
        && String.eqb (logo before) (logo after)).

(** After a handler has run, a mounted instance renders again (all the
    setter calls of the handler in one render) and the edit effect runs
    when one of its dependencies differs from the previous render. *)
Definition commit (before : State) : M unit :=
  after <- gets (fun st => st) ;;
  when (mounted after && depsChanged before after) editEffect.

Definition dispatch (handler : M unit) : M unit :=
  before <- gets (fun st => st) ;;
  handler ;;
  commit before.

(** The timers that are due run their callbacks, the earlier deadline
    first. *)
Definition fireSave : M unit :=
  st <- gets (fun st => st) ;;
  match Debounce.due (now st) (debouncedSave st) with
  | Some args =>
      modify (withDebouncedSave (Debounce.clear (debouncedSave st))) ;;
      dispatch (saveCallback args)
  | None => ret tt
  end.

Definition fireContentChange : M unit :=
  st <- gets (fun st => st) ;;
  match Debounce.due (now st) (debouncedContentChange st) with
  | Some args =>
      modify (withDebouncedContentChange
                (Debounce.clear (debouncedContentChange st))) ;;
      dispatch (contentChangeCallback args)
  | None => ret tt
  end.

Definition contentChangeFirst (st : State) : bool :=
  match Debounce.deadline (debouncedContentChange st),
        Debounce.deadline (debouncedSave st) with
  | Some t1, Some t2 => Nat.ltb t1 t2
  | _, _ => false
  end.

Definition elapse (ms : nat) : M unit :=
  st <- gets (fun st => st) ;;
  modify (withNow (now st + ms)) ;;
  if contentChangeFirst st
  then fireContentChange ;; fireSave
  else fireSave ;; fireContentChange.

(** One event; [None] when the event cannot happen in that state: typing
    needs the inputs on screen, a parent render or an unmount needs a
    mounted instance, a completion needs a pending request. *)
Definition step (ev : Event) (st : State)
  : option (Outcome unit * State * list Action) :=
  match ev with
  | EditContent s =>
      if textareaRef st then Some (dispatch (setValue s) st) else None
  | EditTitle s =>
      if textareaRef st then Some (dispatch (setTitle s) st) else None
  | ParentRender l =>
      if mounted st
      then Some (dispatch
                   (modify (withLogo (match l with
                                      | Some s => s
                                      | None => "NoteSpace"
                                      end))) st)
      else None
  | Elapse ms => Some (elapse ms st)
  | LoadDone r =>
      if loadInFlight st
      then Some (dispatch (loadNoteResume r) (withLoadInFlight false st))
      else None
  | SaveDone r =>
      match savesInFlight st with
      | S n => Some (dispatch (saveNoteResume r) (withSavesInFlight n st))
      | O => None
      end
  | Unmount =>
      if mounted st then Some (Ret tt, unmounted st, []) else None
  end.

(** A sequence of events; [None] when one of them cannot happen or a
    handler lets an exception escape. *)
Fixpoint run (evs : list Event) (st : State)
  : option (State * list Action) :=
  match evs with
  | [] => Some (st, [])
  | ev :: rest =>
      match step ev st with
      | Some (Ret _, st1, l1) =>
          match run rest st1 with
          | Some (st2, l2) => Some (st2, l1 ++ l2)
          | None => None
          end
      | _ => None
      end
  end.

(** The life of an instance from its mount on. *)
Definition life (evs : list Event) : option (State * list Action) :=
  match mount with
  | (Ret _, st0, l0) =>
      match run evs st0 with
      | Some (st, l) => Some (st, l0 ++ l)
      | None => None
      end
  | _ => None
  end.

End NoteEditor.

(** ** Reading the log *)

Definition isSetter (a : Action) : bool :=
  match a with
  | SetValue _ | SetTitle _ | SetIsLoading _ | SetIsSaving _ => true
  | _ => false
  end.

(** The requests of a log, in order. *)
Fixpoint requests (l : list Action) : list Request :=
  match l with
  | [] => []
  | Fetch r :: rest => r :: requests rest
  | _ :: rest => requests rest
  end.

Definition isPut (r : Request) : bool :=
  match method r with
  | PUT => true
  | GET => false
  end.

Definition isGet (r : Request) : bool :=
  match method r with
  | GET => true
  | PUT => false
  end.

(** The PUT requests of a log. *)
Definition sentPuts (l : list Action) : list Request :=
  filter isPut (requests l).

(** The GET requests of a log. *)
Definition sentGets (l : list Action) : list Request :=
  filter isGet (requests l).

(** A load completion that gets as far as the setters: a parsed response
    whose [success] is true and whose [data] is there. *)
Definition populates (r : LoadOutcome) : bool :=
  match r with
  | JsonParsed resp =>
      match success resp, data resp with
      | Some true, Some _ => true
      | _, _ => false
      end
  | _ => false
  end.

(** ** Sample instances *)

Definition backedProps : Props :=
  {| noteId := Some "n1"; initialData := None; logoTextProp := None;
     onContentChange := Some (Cb "onContentChange");
     onTitleChange := Some (Cb "onTitleChange");
     isDisabledProp := None |}.

Definition preloadedProps : Props :=
  {| noteId := Some "n1";
     initialData := Some {| initTitle := Some "Groceries";
                            initContent := Some "milk" |};
     logoTextProp := None;
     onContentChange := Some (Cb "onContentChange");
     onTitleChange := Some (Cb "onTitleChange");
     isDisabledProp := None |}.

Definition homepageProps : Props :=
  {| noteId := None; initialData := None; logoTextProp := None;
     onContentChange := Some (Cb "onContentChange");
     onTitleChange := None;
     isDisabledProp := None |}.

Definition expiredProps : Props :=
  {| noteId := Some "n1"; initialData := None; logoTextProp := None;
     onContentChange := None; onTitleChange := None;
     isDisabledProp := Some true |}.

Definition expiredPreloadedProps : Props :=
  {| noteId := Some "n1";
     initialData := Some {| initTitle := Some "Groceries";
                            initContent := Some "milk" |};
     logoTextProp := None;
     onContentChange := None; onTitleChange := None;
     isDisabledProp := Some true |}.

Definition sampleNote : LoadOutcome :=
  JsonParsed {| success := Some true;
                data := Some {| dataTitle := Some "Groceries";
                                dataContent := Some "milk" |} |}.

(** ** What the handlers come to

    Closed forms of the effect and of the save, used to state what a handler
    leaves behind; each is proved equal to the code it describes below. *)

(** The state after [debouncedSave(value, title, logoText)] of the effect. *)
Definition armSave (p : Props) (st : State) : State :=
  if hasNoteId p && negb (isLoading st)
  then withDebouncedSave
         (Debounce.call (now st) (value st, title st, logo st)
            (debouncedSave st)) st
  else st.

(** The state after [debouncedContentChange(value, title)] of the effect. *)
Definition armContentChange (p : Props) (st : State) : State :=
  if negb (hasNoteId p) && isSome (onHomepageContentChange p)
  then withDebouncedContentChange
         (Debounce.call (now st) (value st, title st)
            (debouncedContentChange st)) st
  else st.

(** The immediate calls of the parent's callbacks in the effect. *)
Definition notifications (p : Props) (st : State) : list Action :=
  match onTitleChange p with
  | Some f => [Invoke f [title st]]
  | None => []
  end ++
  match onContentChange p with
  | Some f => if hasNoteId p then [Invoke f [value st]] else []
  | None => []
  end.

Definition effectLog (p : Props) (st : State) : list Action :=
  (if textareaRef p st then [Resize] else []) ++ notifications p st.

(** The state after [saveNote] has sent its request. *)
Definition startSaving (st : State) : State :=
  let st1 := if isMounted st && mounted st
             then withIsSaving true st else st in
  withSavesInFlight (S (savesInFlight st1)) st1.

(** What [saveNote] leaves behind and what it logs. *)
Definition afterSave (p : Props) (st : State) : State :=
  if hasNoteId p then startSaving st else st.

Definition saveLog (p : Props) (c t l : string) (st : State) : list Action :=
  if hasNoteId p
  then (if isMounted st then [SetIsSaving true] else [])
         ++ [Fetch (putRequest p c t l)]
  else [].

(** The state after the continuation of [saveNote]. *)
Definition afterSaveDone (st : State) : State :=
  if isMounted st && mounted st then withIsSaving false st else st.

Definition saveDoneLog (r : FetchOutcome) (st : State) : list Action :=
  match r with
  | Resolved => []
  | Rejected => [ConsoleError "Failed to save:" NetworkError]
  end ++ (if isMounted st then [SetIsSaving false] else []).

(** The state after the continuation of [loadNote]. *)
Definition afterLoad (r : LoadOutcome) (st : State) : State :=
  if mounted st
  then withIsLoading false
         match r with
         | JsonParsed resp =>
             match success resp, data resp with
             | Some true, Some d =>
                 withTitle (orEmpty (dataTitle d))
                   (withValue (orEmpty (dataContent d)) st)
             | _, _ => st
             end
         | _ => st
         end
  else st.

Definition loadLog (r : LoadOutcome) : list Action :=
  match r with
  | FetchRejected => [ConsoleError "Failed to load note:" NetworkError]
  | JsonRejected => [ConsoleError "Failed to load note:" SyntaxError]
  | JsonParsed resp =>
      match success resp, data resp with
      | Some true, Some d =>
          [SetValue (orEmpty (dataContent d));
           SetTitle (orEmpty (dataTitle d))]
      | Some true, None => [ConsoleError "Failed to load note:" TypeError]
      | _, _ => []
      end
  end ++ [SetIsLoading false].

(** Both debounced calls of the effect. *)
Definition arm (p : Props) (st : State) : State :=
  armContentChange p (armSave p st).

(** A handler took [st] to [st1] and logged [l1]; then the render cycle. *)
Definition rendered (p : Props) (st st1 : State) (l1 : list Action)
  : Outcome unit * State * list Action :=
  if mounted st1 && depsChanged st st1
  then (Ret tt, arm p st1, l1 ++ effectLog p st1)
  else (Ret tt, st1, l1).

(** What a due [debouncedSave] timer does. *)
Definition firedSave (p : Props) (st : State) : State * list Action :=
  match Debounce.due (now st) (debouncedSave st) with
  | Some (c, t, l) =>
      let st0 := withDebouncedSave (Debounce.clear (debouncedSave st)) st in
      (afterSave p st0, saveLog p c t l st0)
  | None => (st, [])
  end.

(** What a due [debouncedContentChange] timer does. *)
Definition firedContentChange (p : Props) (st : State)
  : State * list Action :=
  match Debounce.due (now st) (debouncedContentChange st) with
  | Some (c, t) =>
      (withDebouncedContentChange
         (Debounce.clear (debouncedContentChange st)) st,
       match onContentChange p with
       | Some f => [Invoke f [c; t]]
       | None => []
       end)
  | None => (st, [])
  end.

(** What the passing of [ms] milliseconds does. *)
Definition elapsed (p : Props) (ms : nat) (st : State)
  : State * list Action :=
  let st0 := withNow (now st + ms) st in
  if contentChangeFirst st
  then
    let r1 := firedContentChange p st0 in
    let r2 := firedSave p (fst r1) in
    (fst r2, snd r1 ++ snd r2)
  else
    let r1 := firedSave p st0 in
    let r2 := firedContentChange p (fst r1) in
    (fst r2, snd r1 ++ snd r2).

(** The debounce instances are the ones made at mount. *)
Definition wellFormed (st : State) : Prop :=
  Debounce.wait (debouncedSave st) = 1000
  /\ Debounce.wait (debouncedContentChange st) = 500.

(** What the load effect of the first commit leaves and logs. *)
Definition afterLoadEffect (p : Props) : State :=
  if negb (hasNoteId p) || isSome (initialData p)
  then initialState p
  else withLoadInFlight true (withIsLoading true (initialState p)).

Definition loadEffectLog (p : Props) : list Action :=
  if negb (hasNoteId p) || isSome (initialData p)
  then []
  else [SetIsLoading true; Fetch (getRequest p)].

(** A request the save path may send. *)
Definition isSaveRequest (p : Props) (r : Request) : Prop :=
  hasNoteId p = true /\ exists c t l, r = putRequest p c t l.

(** Of the two timers, only the one of the instance's mode is ever armed. *)
Definition consistent (p : Props) (st : State) : Prop :=
  wellFormed st
  /\ (hasNoteId p = false -> Debounce.pending (debouncedSave st) = None)
  /\ (hasNoteId p = true ->
      Debounce.pending (debouncedContentChange st) = None).


(** An edit that types something new into its field. *)
Definition changesField (ev : Event) (st : State) : Prop :=
  match ev with
  | EditContent s => s <> value st
  | EditTitle s => s <> title st
  | _ => False
  end.





(** The same props with the editor enabled. *)
Definition enabled (p : Props) : Props :=
  {| noteId := noteId p; initialData := initialData p;
     logoTextProp := logoTextProp p;
     onContentChange := onContentChange p;
     onTitleChange := onTitleChange p;
     isDisabledProp := Some false |}.

(** ** Further readings of the state and of the log *)

(** The flags follow the requests: the ref agrees with the runtime, a mounted
    instance is loading exactly while its load is pending and shows the
    saving indicator only while some save is pending, and an instance that
    does not load at mount never loads. *)
Definition flagsTrack (p : Props) (st : State) : Prop :=
  isMounted st = mounted st
  /\ (mounted st = true -> isLoading st = loadInFlight st)
  /\ (mounted st = true -> isSaving st = true -> 0 < savesInFlight st)
  /\ (negb (hasNoteId p) || isSome (initialData p) = true ->
      isLoading st = false /\ loadInFlight st = false).

(** What is pending in the two debounce instances is what the state holds;
    nothing is pending for the save while the note is loading, and nothing
    for the content-change callback when there is none. *)
Definition fresh (p : Props) (st : State) : Prop :=
  (forall dl a,
     Debounce.pending (debouncedSave st) = Some (dl, a) -> a = deps st)
  /\ (forall dl a,
        Debounce.pending (debouncedContentChange st) = Some (dl, a) ->
        a = (value st, title st))
  /\ (isLoading st = true -> Debounce.pending (debouncedSave st) = None)
  /\ (onContentChange p = None ->
      Debounce.pending (debouncedContentChange st) = None).

(** A call of a parent callback the component may make: the title callback
    with the title, the content callback with the content alone when
    [noteId] is set, and with content and title when it is not. *)
Definition expectedCall (p : Props) (a : Action) : Prop :=
  match a with
  | Invoke f args =>
      (onTitleChange p = Some f /\ exists t, args = [t])
      \/ (onContentChange p = Some f /\ hasNoteId p = true
          /\ exists v, args = [v])
      \/ (onContentChange p = Some f /\ hasNoteId p = false
          /\ exists c t, args = [c; t])
  | _ => True
  end.








(** The debounced call of the content callback: the one with two
    arguments. *)
Definition isNotification (a : Action) : bool :=
  match a with
  | Invoke _ [_; _] => true
  | _ => false
  end.

(** A session on a stored note, up to the moment its save is in flight, and
    where it ends. *)
Definition sampleSession : list Event :=
  [LoadDone sampleNote; EditContent "milk, eggs"; Elapse 1000].

Definition sampleSessionEnd : State * list Action :=
  Eval vm_compute in
    match life backedProps sampleSession with
    | Some x => x
    | None => (initialState backedProps, [])
    end.

(** ** Sample runs *)

(** A session on a stored note: load, one edit, the debounced save a second
    later, and the save failing. *)
Example session_log :
  option_map snd
    (life backedProps
       [LoadDone sampleNote; EditContent "milk, eggs"; Elapse 1000;
        SaveDone Rejected])
  = Some
      [SetIsLoading true;
       Fetch {| method := GET; url := "/api/note/n1"; headers := [];
                body := None |};
       Invoke (Cb "onTitleChange") [""];
       Invoke (Cb "onContentChange") [""];
       SetValue "milk"; SetTitle "Groceries"; SetIsLoading false;
       Resize;
       Invoke (Cb "onTitleChange") ["Groceries"];
       Invoke (Cb "onContentChange") ["milk"];
       SetValue "milk, eggs"; Resize;
       Invoke (Cb "onTitleChange") ["Groceries"];
       Invoke (Cb "onContentChange") ["milk, eggs"];
       SetIsSaving true;
       Fetch {| method := PUT; url := "/api/note/n1";
                headers := [("Content-Type", "application/json")];
                body := Some {| Body.content := "milk, eggs";
                                Body.title := "Groceries";
                                Body.logoText := "NoteSpace" |} |};
       ConsoleError "Failed to save:" NetworkError;
       SetIsSaving false].
Proof. reflexivity. Qed.

(** The homepage: two changes 499 ms apart, one notification. *)
Example homepage_log :
  option_map snd
    (life homepageProps
       [EditContent "a"; Elapse 499; EditTitle "T"; Elapse 500])
  = Some [Resize; SetValue "a"; Resize; SetTitle "T"; Resize;
          Invoke (Cb "onContentChange") ["a"; "T"]].
Proof. reflexivity. Qed.

(** Unmount cancels no timer: the save armed at mount still goes out, only
    the [setIsSaving] calls are skipped. *)
Example unmounted_save_log :
  option_map snd
    (life preloadedProps [Unmount; Elapse 1000; SaveDone Resolved])
  = Some
      [Resize;
       Invoke (Cb "onTitleChange") ["Groceries"];
       Invoke (Cb "onContentChange") ["milk"];
       Fetch {| method := PUT; url := "/api/note/n1";
                headers := [("Content-Type", "application/json")];
                body := Some {| Body.content := "milk";
                                Body.title := "Groceries";
                                Body.logoText := "NoteSpace" |} |}].
Proof. reflexivity. Qed.

(** Nothing can be typed while the loading placeholder is shown. *)
Example no_typing_while_loading :
  life backedProps [EditContent "a"] = None.
Proof. reflexivity. Qed.

(** ** The handlers, one by one *)

Ltac unfold_m :=
  unfold bind, ret, raise, emit, gets, modify, when, tryCatch, finally.

Lemma truthyOpt_Some (id : string) (o : option string) :
  o = Some id -> truthy id = true -> truthyOpt o = true.
Proof. intros -> H. exact H. Qed.

Lemma saveNote_runs (p : Props) (c t l : string) (st : State) :
  saveNote p c t l st = (Ret tt, afterSave p st, saveLog p c t l st).
Proof.
  unfold saveNote, afterSave, saveLog, startSaving.
  destruct (hasNoteId p); [|reflexivity].
  unfold_m. unfold setIsSaving, fetch. unfold_m. simpl.
  destruct (isMounted st); simpl; [destruct (mounted st)|]; reflexivity.
Qed.

Lemma saveNoteResume_runs (r : FetchOutcome) (st : State) :
  saveNoteResume r st = (Ret tt, afterSaveDone st, saveDoneLog r st).
Proof.
  unfold saveNoteResume, awaitFetch, consoleError, setIsSaving,
    afterSaveDone, saveDoneLog.
  unfold_m.
  destruct r; simpl;
    (destruct (isMounted st); simpl; [destruct (mounted st)|]; reflexivity).
Qed.

Lemma loadNoteResume_runs (r : LoadOutcome) (st : State) :
  loadNoteResume r st = (Ret tt, afterLoad r st, loadLog r).
Proof.
  unfold loadNoteResume, awaitJson, consoleError, setIsLoading, setValue,
    setTitle, member, afterLoad, loadLog.
  unfold_m. destruct st as [v t ld sv im lg mt nw ds dc lf sf].
  destruct r as [| |[[[|]|] [d|]]]; destruct mt; reflexivity.
Qed.

(** ** The edit effect and the render cycle *)

Ltac fields st :=
  destruct st as [f_value f_title f_loading f_saving f_ref f_logo f_mounted
                    f_now f_ds f_dc f_lf f_sf];
  cbn in *.

Lemma editEffect_runs (p : Props) (st : State) :
  editEffect p st =
    (Ret tt, armContentChange p (armSave p st), effectLog p st).
Proof.
  unfold editEffect, adjustHeight, callDebouncedSave,
    callDebouncedContentChange, armSave, armContentChange, effectLog,
    notifications, onHomepageContentChange.
  unfold_m.
  destruct (textareaRef p st), (onTitleChange p), (onContentChange p),
    (hasNoteId p), (isLoading st) eqn:L; cbn; rewrite ?L; reflexivity.
Qed.

Lemma depsChanged_same (a b : State) :
  value a = value b -> title a = title b -> logo a = logo b ->
  depsChanged a b = false.
Proof.
  intros Hv Ht Hl. unfold depsChanged. rewrite Hv, Ht, Hl.
  now rewrite !String.eqb_refl.
Qed.

Lemma commit_runs (p : Props) (before st : State) :
  commit p before st =
    if mounted st && depsChanged before st
    then editEffect p st
    else (Ret tt, st, []).
Proof.
  unfold commit. unfold_m.
  destruct (mounted st && depsChanged before st); [|reflexivity].
  destruct (editEffect p st) as [[o s] l]. reflexivity.
Qed.

Lemma dispatch_runs (p : Props) (h : M unit) (st st1 : State)
    (l1 : list Action) :
  h st = (Ret tt, st1, l1) ->
  dispatch p h st =
    rendered p st st1 l1.
Proof.
  intros H. unfold dispatch, rendered, arm, bind, gets.
  rewrite H, commit_runs.
  destruct (mounted st1 && depsChanged st st1).
  - rewrite editEffect_runs. reflexivity.
  - now rewrite app_nil_r.
Qed.

Lemma rendered_same (p : Props) (st st1 : State) (l1 : list Action) :
  value st = value st1 -> title st = title st1 -> logo st = logo st1 ->
  rendered p st st1 l1 = (Ret tt, st1, l1).
Proof.
  intros Hv Ht Hl. unfold rendered.
  now rewrite (depsChanged_same st st1 Hv Ht Hl), andb_false_r.
Qed.

Lemma fireSave_runs (p : Props) (st : State) :
  fireSave p st =
    match Debounce.due (now st) (debouncedSave st) with
    | Some (c, t, l) =>
        let st0 := withDebouncedSave (Debounce.clear (debouncedSave st)) st in
        (Ret tt, afterSave p st0, saveLog p c t l st0)
    | None => (Ret tt, st, [])
    end.
Proof.
  unfold fireSave. unfold bind at 1. unfold gets at 1.
  destruct (Debounce.due (now st) (debouncedSave st)) as [[[c t] l]|];
    [|reflexivity].
  unfold bind at 1. unfold modify at 1. cbv zeta.
  rewrite (dispatch_runs p _ _ _ _ (saveNote_runs p c t l _)).
  rewrite rendered_same; [reflexivity| | |];
    unfold afterSave, startSaving;
    destruct (hasNoteId p); try reflexivity;
    fields st; destruct f_ref, f_mounted; reflexivity.
Qed.

Lemma fireContentChange_runs (p : Props) (st : State) :
  fireContentChange p st =
    match Debounce.due (now st) (debouncedContentChange st) with
    | Some (c, t) =>
        (Ret tt,
         withDebouncedContentChange
           (Debounce.clear (debouncedContentChange st)) st,
         match onContentChange p with
         | Some f => [Invoke f [c; t]]
         | None => []
         end)
    | None => (Ret tt, st, [])
    end.
Proof.
  unfold fireContentChange. unfold bind at 1. unfold gets at 1.
  destruct (Debounce.due (now st) (debouncedContentChange st)) as [[c t]|];
    [|reflexivity].
  unfold bind at 1. unfold modify at 1.
  assert (H : forall s : State,
             contentChangeCallback p (c, t) s =
               (Ret tt, s, match onContentChange p with
                           | Some f => [Invoke f [c; t]]
                           | None => []
                           end)).
  { intros s. unfold contentChangeCallback.
    destruct (onContentChange p); reflexivity. }
  rewrite (dispatch_runs p _ _ _ _ (H _)).
  now rewrite rendered_same.
Qed.

Lemma elapse_runs (p : Props) (ms : nat) (st : State) :
  elapse p ms st = (Ret tt, fst (elapsed p ms st), snd (elapsed p ms st)).
Proof.
  unfold elapse, elapsed. unfold bind at 1. unfold gets at 1.
  unfold bind at 1. unfold modify at 1. cbv zeta.
  destruct (contentChangeFirst st); unfold bind;
    rewrite ?fireSave_runs, ?fireContentChange_runs;
    unfold firedSave, firedContentChange.
  - destruct (Debounce.due _ (debouncedContentChange _)) as [[c t]|];
      rewrite fireSave_runs;
      destruct (Debounce.due _ (debouncedSave _)) as [[[c' t'] l']|];
      reflexivity.
  - destruct (Debounce.due _ (debouncedSave _)) as [[[c' t'] l']|];
      rewrite fireContentChange_runs;
      destruct (Debounce.due _ (debouncedContentChange _)) as [[c t]|];
      reflexivity.
Qed.

Lemma textareaRef_mounted (p : Props) (st : State) :
  textareaRef p st = true -> mounted st = true.
Proof. unfold textareaRef. now intros [H _]%andb_prop. Qed.

(** The step function, event by event, in closed form. *)
Lemma step_runs (p : Props) (ev : Event) (st : State) :
  step p ev st =
    match ev with
    | EditContent s =>
        if textareaRef p st
        then Some (rendered p st (withValue s st) [SetValue s])
        else None
    | EditTitle s =>
        if textareaRef p st
        then Some (rendered p st (withTitle s st) [SetTitle s])
        else None
    | ParentRender l =>
        if mounted st
        then Some (rendered p st
                     (withLogo (match l with
                                | Some s => s
                                | None => "NoteSpace"
                                end) st) [])
        else None
    | Elapse ms =>
        Some (Ret tt, fst (elapsed p ms st), snd (elapsed p ms st))
    | LoadDone r =>
        if loadInFlight st
        then Some (rendered p (withLoadInFlight false st)
                     (afterLoad r (withLoadInFlight false st)) (loadLog r))
        else None
    | SaveDone r =>
        match savesInFlight st with
        | S n => Some (Ret tt, afterSaveDone (withSavesInFlight n st),
                       saveDoneLog r (withSavesInFlight n st))
        | O => None
        end
    | Unmount =>
        if mounted st then Some (Ret tt, unmounted st, []) else None
    end.
Proof.
  destruct ev as [s|s|l|ms|r|r|]; cbn [step].
  - destruct (textareaRef p st) eqn:T; [|reflexivity].
    apply textareaRef_mounted in T. f_equal. apply dispatch_runs.
    unfold setValue. unfold_m. now rewrite T.
  - destruct (textareaRef p st) eqn:T; [|reflexivity].
    apply textareaRef_mounted in T. f_equal. apply dispatch_runs.
    unfold setTitle. unfold_m. now rewrite T.
  - destruct (mounted st); [|reflexivity]. f_equal. now apply dispatch_runs.
  - now rewrite elapse_runs.
  - destruct (loadInFlight st); [|reflexivity]. f_equal.
    apply dispatch_runs, loadNoteResume_runs.
  - destruct (savesInFlight st) as [|n]; [reflexivity|]. f_equal.
    rewrite (dispatch_runs p _ _ _ _ (saveNoteResume_runs r _)).
    apply rendered_same; unfold afterSaveDone;
      destruct (isMounted _ && mounted _); reflexivity.
  - reflexivity.
Qed.

(** No handler of the component lets an exception escape. *)
Lemma step_returns (p : Props) (ev : Event) (st st' : State)
    (o : Outcome unit) (l : list Action) :
  step p ev st = Some (o, st', l) -> o = Ret tt.
Proof.
  rewrite step_runs. unfold rendered.
  destruct ev; intros H;
    repeat match type of H with
           | context [match ?x with _ => _ end] => destruct x
           end;
    congruence.
Qed.

Lemma mount_runs (p : Props) :
  mount p =
    (Ret tt, arm p (afterLoadEffect p),
     loadEffectLog p ++ effectLog p (afterLoadEffect p)).
Proof.
  unfold mount, mountEffects, bind, loadEffect, afterLoadEffect,
    loadEffectLog.
  destruct (negb (hasNoteId p) || isSome (initialData p)).
  - unfold ret. now rewrite editEffect_runs.
  - unfold loadNote, setIsLoading, fetch. unfold_m. cbn [mounted initialState].
    cbn [method getRequest]. now rewrite editEffect_runs.
Qed.

(** ** Requests *)

Lemma requests_app (l1 l2 : list Action) :
  requests (l1 ++ l2) = requests l1 ++ requests l2.
Proof.
  induction l1 as [|a l1 IH]; [reflexivity|].
  destruct a; cbn; now rewrite ?IH.
Qed.

Lemma requests_effectLog (p : Props) (st : State) :
  requests (effectLog p st) = [].
Proof.
  unfold effectLog, notifications.
  destruct (textareaRef p st), (onTitleChange p), (onContentChange p),
    (hasNoteId p); reflexivity.
Qed.

Lemma requests_loadLog (r : LoadOutcome) : requests (loadLog r) = [].
Proof. destruct r as [| |[[[|]|] [d|]]]; reflexivity. Qed.

Lemma requests_saveDoneLog (r : FetchOutcome) (st : State) :
  requests (saveDoneLog r st) = [].
Proof. unfold saveDoneLog. destruct r, (isMounted st); reflexivity. Qed.

Lemma requests_saveLog (p : Props) (c t l : string) (st : State) :
  requests (saveLog p c t l st) =
    if hasNoteId p then [putRequest p c t l] else [].
Proof.
  unfold saveLog. destruct (hasNoteId p), (isMounted st); reflexivity.
Qed.

Lemma requests_firedContentChange (p : Props) (st : State) :
  requests (snd (firedContentChange p st)) = [].
Proof.
  unfold firedContentChange.
  destruct (Debounce.due _ _) as [[c t]|]; [|reflexivity].
  cbn. destruct (onContentChange p); reflexivity.
Qed.

Lemma requests_firedSave (p : Props) (st : State) :
  requests (snd (firedSave p st)) =
    match Debounce.due (now st) (debouncedSave st) with
    | Some (c, t, l) => if hasNoteId p then [putRequest p c t l] else []
    | None => []
    end.
Proof.
  unfold firedSave.
  destruct (Debounce.due _ _) as [[[c t] l]|]; [|reflexivity].
  cbn. apply requests_saveLog.
Qed.

Lemma requests_rendered (p : Props) (st st1 st' : State)
    (l1 l : list Action) (o : Outcome unit) :
  rendered p st st1 l1 = (o, st', l) -> requests l = requests l1.
Proof.
  unfold rendered. destruct (mounted st1 && depsChanged st st1);
    intros [= _ _ <-]; [|reflexivity].
  now rewrite requests_app, requests_effectLog, app_nil_r.
Qed.

Lemma Forall_isSaveRequest_fired (p : Props) (st : State) :
  Forall (isSaveRequest p) (requests (snd (firedSave p st))).
Proof.
  rewrite requests_firedSave.
  destruct (Debounce.due _ _) as [[[c t] l]|]; [|constructor].
  destruct (hasNoteId p) eqn:H; constructor; [|constructor].
  split; [exact H|]. now exists c, t, l.
Qed.

(** After mount, the only requests are the PUTs of [saveNote]. *)
Lemma step_requests (p : Props) (ev : Event) (st st' : State)
    (o : Outcome unit) (l : list Action) :
  step p ev st = Some (o, st', l) ->
  Forall (isSaveRequest p) (requests l).
Proof.
  rewrite step_runs. destruct ev as [s|s|g|ms|r|r|].
  - destruct (textareaRef p st); [|discriminate].
    intros [= H]. apply requests_rendered in H. rewrite H. constructor.
  - destruct (textareaRef p st); [|discriminate].
    intros [= H]. apply requests_rendered in H. rewrite H. constructor.
  - destruct (mounted st); [|discriminate].
    intros [= H]. apply requests_rendered in H. rewrite H. constructor.
  - intros [= _ _ <-]. unfold elapsed.
    destruct (contentChangeFirst st); cbn [snd];
      rewrite requests_app, requests_firedContentChange.
    + cbn [app]. apply Forall_isSaveRequest_fired.
    + rewrite app_nil_r. apply Forall_isSaveRequest_fired.
  - destruct (loadInFlight st); [|discriminate].
    intros [= H]. apply requests_rendered in H.
    rewrite H, requests_loadLog. constructor.
  - destruct (savesInFlight st); [discriminate|].
    intros [= _ _ <-]. rewrite requests_saveDoneLog. constructor.
  - destruct (mounted st); [|discriminate]. intros [= _ _ <-]. constructor.
Qed.

Lemma run_requests (p : Props) (evs : list Event) :
  forall (st st' : State) (l : list Action),
    run p evs st = Some (st', l) ->
    Forall (isSaveRequest p) (requests l).
Proof.
  induction evs as [|ev evs IH]; intros st st' l; cbn [run].
  - intros [= _ <-]. constructor.
  - destruct (step p ev st) as [[[[[]|e] st1] l1]|] eqn:S; try discriminate.
    destruct (run p evs st1) as [[st2 l2]|] eqn:R; [|discriminate].
    intros [= _ <-]. rewrite requests_app. apply Forall_app. split.
    + eapply step_requests, S.
    + eapply IH, R.
Qed.

Lemma gets_of_saves (p : Props) (rs : list Request) :
  Forall (isSaveRequest p) rs -> filter isGet rs = [].
Proof.
  induction 1 as [|r rs [_ (c & t & l & ->)] _ IH]; [reflexivity|].
  cbn. exact IH.
Qed.


(** ** What the effect leaves alone *)

Ltac arm_cases p st :=
  unfold arm, armSave, armContentChange, onHomepageContentChange;
  destruct st as [? ? loading ? ? ? ? ? ? ? ? ?]; cbn;
  destruct (hasNoteId p), (onContentChange p), loading; reflexivity.

Lemma arm_value (p : Props) (st : State) : value (arm p st) = value st.
Proof. arm_cases p st. Qed.

Lemma arm_title (p : Props) (st : State) : title (arm p st) = title st.
Proof. arm_cases p st. Qed.

Lemma arm_logo (p : Props) (st : State) : logo (arm p st) = logo st.
Proof. arm_cases p st. Qed.

Lemma arm_isLoading (p : Props) (st : State) :
  isLoading (arm p st) = isLoading st.
Proof. arm_cases p st. Qed.

Lemma arm_isSaving (p : Props) (st : State) :
  isSaving (arm p st) = isSaving st.
Proof. arm_cases p st. Qed.

Lemma arm_mounted (p : Props) (st : State) : mounted (arm p st) = mounted st.
Proof. arm_cases p st. Qed.

Lemma arm_isMounted (p : Props) (st : State) :
  isMounted (arm p st) = isMounted st.
Proof. arm_cases p st. Qed.

Lemma arm_now (p : Props) (st : State) : now (arm p st) = now st.
Proof. arm_cases p st. Qed.

(** The render cycle changes no cell and no flag: only timers get armed. *)
Lemma rendered_cells (p : Props) (st st1 st' : State) (l1 l : list Action)
    (o : Outcome unit) :
  rendered p st st1 l1 = (o, st', l) ->
  o = Ret tt
  /\ value st' = value st1 /\ title st' = title st1 /\ logo st' = logo st1
  /\ isLoading st' = isLoading st1 /\ isSaving st' = isSaving st1
  /\ mounted st' = mounted st1 /\ isMounted st' = isMounted st1
  /\ now st' = now st1.
Proof.
  unfold rendered. destruct (mounted st1 && depsChanged st st1);
    intros [= <- <- _]; [|repeat split].
  now rewrite arm_value, arm_title, arm_logo, arm_isLoading, arm_isSaving,
    arm_mounted, arm_isMounted, arm_now.
Qed.

(** ** Saving *)

(** C8: a call of [saveNote] while [noteId] is unset ([undefined] or the
    empty string, both falsy) returns at once: no request goes out, no setter
    is called, and the state, [isSaving] included, is what it was. *)
Theorem saveNote_without_noteId (p : Props) (c t l : string) (st : State) :
  hasNoteId p = false ->
  saveNote p c t l st = (Ret tt, st, [])
  /\ isSaving (snd (fst (saveNote p c t l st))) = isSaving st
  /\ requests (snd (saveNote p c t l st)) = [].
Proof.
  intros H. rewrite saveNote_runs. unfold afterSave, saveLog. rewrite H.
  repeat split.
Qed.

Lemma saveNote_without_noteId_witness :
  hasNoteId homepageProps = false
  /\ saveNote homepageProps "milk" "Groceries" "NoteSpace"
       (initialState homepageProps)
     = (Ret tt, initialState homepageProps, []).
Proof.
  split; [reflexivity|].
  apply (saveNote_without_noteId homepageProps "milk" "Groceries" "NoteSpace"
           (initialState homepageProps)).
  reflexivity.
Defined.

(** C5: an executed save ([noteId] set) is one PUT to [/api/note/{noteId}]
    whose body is the object [{content, title, logoText}] of its arguments.
    [setIsSaving(true)] is called before the request and [setIsSaving(false)]
    after the completion, whether the request resolved or rejected, and each
    of the two calls is made only when [isMounted.current] holds.  A failure
    is written to the console and nothing else: the completion sends no
    request (no retry) and leaves the same state as a success (no error
    state), and it never throws. *)
Theorem saveNote_put_and_saving_flag (p : Props) (id c t l : string)
    (st : State) (r : FetchOutcome) :
  noteId p = Some id -> truthy id = true ->
  let req := putRequest p c t l in
  (method req = PUT
   /\ url req = ("/api/note/" ++ id)%string
   /\ headers req = [("Content-Type", "application/json")]
   /\ body req = Some {| Body.content := c; Body.title := t;
                         Body.logoText := l |})
  /\ saveNote p c t l st =
       (Ret tt, startSaving st,
        (if isMounted st then [SetIsSaving true] else []) ++ [Fetch req])
  /\ isSaving (startSaving st) =
       (if isMounted st && mounted st then true else isSaving st)
  /\ saveNoteResume r st =
       (Ret tt, afterSaveDone st,
        match r with
        | Resolved => []
        | Rejected => [ConsoleError "Failed to save:" NetworkError]
        end ++ (if isMounted st then [SetIsSaving false] else []))
  /\ isSaving (afterSaveDone st) =
       (if isMounted st && mounted st then false else isSaving st)
  /\ requests (snd (saveNoteResume r st)) = []
  /\ snd (fst (saveNoteResume Rejected st))
     = snd (fst (saveNoteResume Resolved st)).
Proof.
  intros Hid Htruthy req.
  assert (H : hasNoteId p = true) by exact (truthyOpt_Some _ _ Hid Htruthy).
  split; [|split; [|split; [|split; [|split; [|split]]]]].
  - subst req. unfold putRequest, noteUrl. cbn. rewrite Hid. repeat split.
  - rewrite saveNote_runs. unfold afterSave, saveLog. now rewrite H.
  - unfold startSaving. destruct (isMounted st && mounted st); reflexivity.
  - now rewrite saveNoteResume_runs.
  - unfold afterSaveDone. destruct (isMounted st && mounted st); reflexivity.
  - rewrite saveNoteResume_runs. apply requests_saveDoneLog.
  - now rewrite !saveNoteResume_runs.
Qed.

Lemma saveNote_put_and_saving_flag_witness :
  noteId preloadedProps = Some "n1" /\ truthy "n1" = true
  /\ saveNote preloadedProps "milk" "Groceries" "NoteSpace"
       (initialState preloadedProps)
     = (Ret tt, startSaving (initialState preloadedProps),
        [SetIsSaving true;
         Fetch (putRequest preloadedProps "milk" "Groceries" "NoteSpace")])
  /\ saveNoteResume Rejected (startSaving (initialState preloadedProps))
     = (Ret tt, afterSaveDone (startSaving (initialState preloadedProps)),
        [ConsoleError "Failed to save:" NetworkError; SetIsSaving false]).
Proof.
  split; [reflexivity|]. split; [reflexivity|]. split.
  - exact (proj1 (proj2 (saveNote_put_and_saving_flag preloadedProps "n1"
                           "milk" "Groceries" "NoteSpace"
                           (initialState preloadedProps) Resolved
                           eq_refl eq_refl))).
  - exact (proj1 (proj2 (proj2 (proj2
             (saveNote_put_and_saving_flag preloadedProps "n1"
                "milk" "Groceries" "NoteSpace"
                (startSaving (initialState preloadedProps)) Rejected
                eq_refl eq_refl))))).
Defined.

(** ** Loading *)

Lemma setters_loadLog_failure (r : LoadOutcome) :
  populates r = false -> filter isSetter (loadLog r) = [SetIsLoading false].
Proof.
  destruct r as [| |[[[|]|] [d|]]]; cbn; intros H;
    try discriminate; reflexivity.
Qed.

(** C9: a load completion that is not a success (the fetch rejects, the
    body does not parse, the [success] flag is absent or false; also a
    response that says success but has no [data]) never throws, calls no
    setter but [setIsLoading(false)], sends nothing, and leaves every cell of
    the state as it was at completion time except [isLoading], which a
    mounted instance sees cleared: [title] and [value] are neither emptied
    nor overwritten. *)
Theorem load_failure_keeps_title_and_content (p : Props) (r : LoadOutcome)
    (st st' : State) (o : Outcome unit) (l : list Action) :
  populates r = false ->
  step p (LoadDone r) st = Some (o, st', l) ->
  o = Ret tt
  /\ st' = (if mounted st
            then withIsLoading false (withLoadInFlight false st)
            else withLoadInFlight false st)
  /\ value st' = value st /\ title st' = title st
  /\ filter isSetter l = [SetIsLoading false]
  /\ requests l = [].
Proof.
  intros Hr. rewrite step_runs.
  destruct (loadInFlight st); [|discriminate].
  assert (Hst : afterLoad r (withLoadInFlight false st) =
                if mounted st
                then withIsLoading false (withLoadInFlight false st)
                else withLoadInFlight false st).
  { unfold afterLoad. cbn [mounted withLoadInFlight].
    destruct (mounted st); [|reflexivity].
    destruct r as [| |[[[|]|] [d|]]]; cbn in Hr; try discriminate;
      reflexivity. }
  rewrite rendered_same.
  - intros [= <- <- <-]. rewrite Hst, setters_loadLog_failure by exact Hr.
    rewrite requests_loadLog.
    destruct (mounted st); repeat split.
  - rewrite Hst. destruct (mounted st); reflexivity.
  - rewrite Hst. destruct (mounted st); reflexivity.
  - rewrite Hst. destruct (mounted st); reflexivity.
Qed.

Lemma load_failure_keeps_title_and_content_witness :
  populates JsonRejected = false
  /\ step backedProps (LoadDone JsonRejected)
       (snd (fst (mount backedProps)))
     = Some (Ret tt,
             withIsLoading false
               (withLoadInFlight false (snd (fst (mount backedProps)))),
             [ConsoleError "Failed to load note:" SyntaxError;
              SetIsLoading false])
  /\ value (withIsLoading false
              (withLoadInFlight false (snd (fst (mount backedProps)))))
     = value (snd (fst (mount backedProps))).
Proof.
  split; [reflexivity|]. split; [reflexivity|].
  exact (proj1 (proj2 (proj2
           (load_failure_keeps_title_and_content backedProps JsonRejected
              (snd (fst (mount backedProps)))
              (withIsLoading false
                 (withLoadInFlight false (snd (fst (mount backedProps)))))
              (Ret tt)
              [ConsoleError "Failed to load note:" SyntaxError;
               SetIsLoading false]
              eq_refl eq_refl)))).
Defined.

(** C3 (the code departs from it): [saveNote] reads [isMounted.current]
    before each of its setter calls, [loadNote] never does.  On the instance
    [backedProps], unmounted while its load request is pending, the flag is
    false when the response arrives, the completion returns normally, and it
    still calls [setValue], [setTitle] and [setIsLoading]; the runtime drops
    the three updates.  A save completion on an unmounted instance calls no
    setter. *)
Theorem load_completion_ignores_liveness_flag :
  exists st : State,
    run backedProps [Unmount] (snd (fst (mount backedProps)))
      = Some (st, [])
    /\ isMounted st = false
    /\ loadInFlight st = true
    /\ step backedProps (LoadDone sampleNote) st
       = Some (Ret tt, withLoadInFlight false st,
               [SetValue "milk"; SetTitle "Groceries"; SetIsLoading false])
    /\ saveNoteResume Resolved st = (Ret tt, st, []).
Proof.
  eexists. split; [reflexivity|]. repeat split.
Qed.

Lemma life_runs (p : Props) (evs : list Event) :
  life p evs =
    match run p evs (arm p (afterLoadEffect p)) with
    | Some (st, l) =>
        Some (st, (loadEffectLog p ++ effectLog p (afterLoadEffect p)) ++ l)
    | None => None
    end.
Proof. unfold life. now rewrite mount_runs. Qed.

Lemma loads_on_mount (p : Props) :
  hasNoteId p = true -> initialData p = None ->
  afterLoadEffect p = withLoadInFlight true (withIsLoading true (initialState p))
  /\ loadEffectLog p = [SetIsLoading true; Fetch (getRequest p)].
Proof.
  intros H1 H2. unfold afterLoadEffect, loadEffectLog. now rewrite H1, H2.
Qed.

(** The GET of the load effect is the only GET of a life. *)
Lemma life_single_get (p : Props) (evs : list Event) (st : State)
    (l : list Action) :
  hasNoteId p = true -> initialData p = None ->
  life p evs = Some (st, l) -> sentGets l = [getRequest p].
Proof.
  intros H Hinit. rewrite life_runs.
  destruct (run p evs _) as [[st2 l2]|] eqn:R; [|discriminate].
  intros [= _ <-]. destruct (loads_on_mount p H Hinit) as [_ ->].
  unfold sentGets. rewrite !requests_app, requests_effectLog.
  cbn [requests app]. cbn [filter isGet method getRequest].
  now rewrite (gets_of_saves p _ (run_requests p evs _ _ _ R)).
Qed.



(** ** Edits *)

Lemma depsChanged_value (st : State) (s : string) :
  s <> value st -> depsChanged st (withValue s st) = true.
Proof.
  intros H. unfold depsChanged. cbn [value withValue].
  destruct (String.eqb_spec (value st) s) as [E|E]; [|reflexivity].
  now elim H.
Qed.

Lemma depsChanged_title (st : State) (s : string) :
  s <> title st -> depsChanged st (withTitle s st) = true.
Proof.
  intros H. unfold depsChanged. cbn [value title withTitle].
  rewrite String.eqb_refl.
  destruct (String.eqb_spec (title st) s) as [E|E]; [|reflexivity].
  now elim H.
Qed.

Lemma textareaRef_withValue (p : Props) (s : string) (st : State) :
  textareaRef p (withValue s st) = textareaRef p st.
Proof.
  unfold textareaRef, render. cbn [mounted isLoading withValue].
  destruct (isLoading st), (isDisabled p); reflexivity.
Qed.

Lemma textareaRef_withTitle (p : Props) (s : string) (st : State) :
  textareaRef p (withTitle s st) = textareaRef p st.
Proof.
  unfold textareaRef, render. cbn [mounted isLoading withTitle].
  destruct (isLoading st), (isDisabled p); reflexivity.
Qed.

(** What a genuine edit does, in full. *)
Lemma step_edit (p : Props) (ev : Event) (st : State) :
  changesField ev st ->
  step p ev st =
    if textareaRef p st
    then
      match ev with
      | EditContent s =>
          Some (Ret tt, arm p (withValue s st),
                SetValue s :: Resize :: notifications p (withValue s st))
      | EditTitle s =>
          Some (Ret tt, arm p (withTitle s st),
                SetTitle s :: Resize :: notifications p (withTitle s st))
      | _ => None
      end
    else None.
Proof.
  intros H. rewrite step_runs.
  destruct ev as [s|s| | | | |]; cbn in H; try contradiction;
    destruct (textareaRef p st) eqn:T; try reflexivity;
    pose proof (textareaRef_mounted _ _ T) as Hm;
    unfold rendered, effectLog.
  - rewrite depsChanged_value by exact H.
    cbn [mounted withValue]. rewrite Hm. cbn [andb].
    now rewrite textareaRef_withValue, T.
  - rewrite depsChanged_title by exact H.
    cbn [mounted withTitle]. rewrite Hm. cbn [andb].
    now rewrite textareaRef_withTitle, T.
Qed.

(** C7: every edit of the title or of the content calls, within the edit
    itself (no timer, no pause), [onTitleChange] with the title now in the
    state whenever that callback was given, and [onContentChange] with the
    content now in the state whenever that callback was given and [noteId] is
    set; these are the only calls made, whatever the debounce timers hold. *)
Theorem edit_notifies_immediately (p : Props) (ev : Event) (st st' : State)
    (o : Outcome unit) (l : list Action) :
  changesField ev st ->
  step p ev st = Some (o, st', l) ->
  o = Ret tt
  /\ match ev with
     | EditContent s => value st' = s /\ title st' = title st
     | EditTitle s => title st' = s /\ value st' = value st
     | _ => False
     end
  /\ (exists setter,
        isSetter setter = true
        /\ l = setter :: Resize ::
               match onTitleChange p with
               | Some f => [Invoke f [title st']]
               | None => []
               end ++
               match onContentChange p with
               | Some g => if hasNoteId p then [Invoke g [value st']] else []
               | None => []
               end)
  /\ (forall f, onTitleChange p = Some f -> In (Invoke f [title st']) l)
  /\ (forall g, onContentChange p = Some g -> hasNoteId p = true ->
                In (Invoke g [value st']) l).
Proof.
  intros H. rewrite (step_edit p ev st H).
  destruct (textareaRef p st); [|discriminate].
  destruct ev as [s|s| | | | |]; try discriminate;
    intros [= <- <- <-]; rewrite arm_value, arm_title;
    unfold notifications; cbn [value title withValue withTitle].
  - split; [reflexivity|]. split; [now split|]. split.
    + exists (SetValue s). now split.
    + split.
      * intros f ->. right. right. now left.
      * intros g -> ->. right. right. apply in_or_app. right. now left.
  - split; [reflexivity|]. split; [now split|]. split.
    + exists (SetTitle s). now split.
    + split.
      * intros f ->. right. right. now left.
      * intros g -> ->. right. right. apply in_or_app. right. now left.
Qed.

Lemma edit_notifies_immediately_witness :
  changesField (EditTitle "Shopping") (snd (fst (mount preloadedProps)))
  /\ In (Invoke (Cb "onTitleChange") ["Shopping"])
       [SetTitle "Shopping"; Resize;
        Invoke (Cb "onTitleChange") ["Shopping"];
        Invoke (Cb "onContentChange") ["milk"]].
Proof.
  assert (H : changesField (EditTitle "Shopping")
                (snd (fst (mount preloadedProps)))) by (cbn; discriminate).
  split; [exact H|].
  exact (proj1 (proj2 (proj2 (proj2
           (edit_notifies_immediately preloadedProps (EditTitle "Shopping")
              (snd (fst (mount preloadedProps)))
              (arm preloadedProps
                 (withTitle "Shopping" (snd (fst (mount preloadedProps)))))
              (Ret tt)
              [SetTitle "Shopping"; Resize;
               Invoke (Cb "onTitleChange") ["Shopping"];
               Invoke (Cb "onContentChange") ["milk"]]
              H eq_refl))))
           (Cb "onTitleChange") eq_refl).
Defined.

(** ** Timers *)

Lemma arm_debouncedSave (p : Props) (st : State) :
  debouncedSave (arm p st) =
    if hasNoteId p && negb (isLoading st)
    then Debounce.call (now st) (value st, title st, logo st)
           (debouncedSave st)
    else debouncedSave st.
Proof. arm_cases p st. Qed.

Lemma arm_debouncedContentChange (p : Props) (st : State) :
  debouncedContentChange (arm p st) =
    if negb (hasNoteId p) && isSome (onContentChange p)
    then Debounce.call (now st) (value st, title st)
           (debouncedContentChange st)
    else debouncedContentChange st.
Proof. arm_cases p st. Qed.

Lemma consistent_same_timers (p : Props) (st st' : State) :
  debouncedSave st' = debouncedSave st ->
  debouncedContentChange st' = debouncedContentChange st ->
  consistent p st -> consistent p st'.
Proof. unfold consistent, wellFormed. now intros -> ->. Qed.

Lemma consistent_arm (p : Props) (st : State) :
  consistent p st -> consistent p (arm p st).
Proof.
  unfold consistent, wellFormed. intros ((W1 & W2) & N1 & N2).
  rewrite arm_debouncedSave, arm_debouncedContentChange.
  destruct (hasNoteId p); cbn [negb andb];
    destruct (isLoading st), (isSome (onContentChange p)); cbn;
    repeat split; auto; discriminate.
Qed.

Lemma consistent_rendered (p : Props) (st st1 st' : State)
    (l1 l : list Action) (o : Outcome unit) :
  rendered p st st1 l1 = (o, st', l) ->
  consistent p st1 -> consistent p st'.
Proof.
  unfold rendered. destruct (_ && _); intros [= _ <- _]; [|auto].
  apply consistent_arm.
Qed.

Lemma startSaving_timers (st : State) :
  debouncedSave (startSaving st) = debouncedSave st
  /\ debouncedContentChange (startSaving st) = debouncedContentChange st.
Proof. unfold startSaving. destruct (_ && _); split; reflexivity. Qed.

Lemma consistent_firedSave (p : Props) (st : State) :
  consistent p st -> consistent p (fst (firedSave p st)).
Proof.
  intros H. unfold firedSave.
  destruct (Debounce.due _ _) as [[[c t] l]|]; [|exact H]. cbn [fst].
  assert (H0 : consistent p
                 (withDebouncedSave (Debounce.clear (debouncedSave st)) st)).
  { destruct H as ((W1 & W2) & N1 & N2). repeat split; auto. }
  unfold afterSave. destruct (hasNoteId p); [|exact H0].
  destruct (startSaving_timers
              (withDebouncedSave (Debounce.clear (debouncedSave st)) st))
    as [E1 E2].
  exact (consistent_same_timers p _ _ E1 E2 H0).
Qed.

Lemma consistent_firedContentChange (p : Props) (st : State) :
  consistent p st -> consistent p (fst (firedContentChange p st)).
Proof.
  intros H. unfold firedContentChange.
  destruct (Debounce.due _ _) as [[c t]|]; [|exact H]. cbn [fst].
  destruct H as ((W1 & W2) & N1 & N2). repeat split; auto.
Qed.

Lemma consistent_elapsed (p : Props) (ms : nat) (st : State) :
  consistent p st -> consistent p (fst (elapsed p ms st)).
Proof.
  intros H. unfold elapsed.
  assert (H0 : consistent p (withNow (now st + ms) st))
    by exact (consistent_same_timers p _ _ eq_refl eq_refl H).
  destruct (contentChangeFirst st); cbn [fst].
  - now apply consistent_firedSave, consistent_firedContentChange.
  - now apply consistent_firedContentChange, consistent_firedSave.
Qed.

Lemma afterLoad_timers (r : LoadOutcome) (st : State) :
  debouncedSave (afterLoad r st) = debouncedSave st
  /\ debouncedContentChange (afterLoad r st) = debouncedContentChange st.
Proof.
  unfold afterLoad. destruct (mounted st); [|now split].
  destruct r as [| |[[[|]|] [d|]]]; now split.
Qed.

Lemma step_consistent (p : Props) (ev : Event) (st st' : State)
    (o : Outcome unit) (l : list Action) :
  step p ev st = Some (o, st', l) ->
  consistent p st -> consistent p st'.
Proof.
  rewrite step_runs. intros S H. destruct ev as [s|s|g|ms|r|r|].
  - destruct (textareaRef p st); [|discriminate]. injection S as S.
    apply (consistent_rendered _ _ _ _ _ _ _ S).
    exact (consistent_same_timers p _ _ eq_refl eq_refl H).
  - destruct (textareaRef p st); [|discriminate]. injection S as S.
    apply (consistent_rendered _ _ _ _ _ _ _ S).
    exact (consistent_same_timers p _ _ eq_refl eq_refl H).
  - destruct (mounted st); [|discriminate]. injection S as S.
    apply (consistent_rendered _ _ _ _ _ _ _ S).
    exact (consistent_same_timers p _ _ eq_refl eq_refl H).
  - injection S as _ <- _. now apply consistent_elapsed.
  - destruct (loadInFlight st); [|discriminate]. injection S as S.
    apply (consistent_rendered _ _ _ _ _ _ _ S).
    destruct (afterLoad_timers r (withLoadInFlight false st)) as [E1 E2].
    exact (consistent_same_timers p _ _ E1 E2 H).
  - destruct (savesInFlight st) as [|n]; [discriminate|].
    injection S as _ <- _. unfold afterSaveDone.
    destruct (_ && _);
      exact (consistent_same_timers p _ _ eq_refl eq_refl H).
  - destruct (mounted st); [|discriminate]. injection S as _ <- _.
    exact (consistent_same_timers p _ _ eq_refl eq_refl H).
Qed.

Lemma run_consistent (p : Props) (evs : list Event) :
  forall (st st' : State) (l : list Action),
    run p evs st = Some (st', l) -> consistent p st -> consistent p st'.
Proof.
  induction evs as [|ev evs IH]; intros st st' l; cbn [run].
  - now intros [= <- _].
  - destruct (step p ev st) as [[[[[]|e] st1] l1]|] eqn:S; try discriminate.
    destruct (run p evs st1) as [[st2 l2]|] eqn:R; [|discriminate].
    intros [= <- _] H. eapply IH; [exact R|].
    eapply step_consistent; [exact S|exact H].
Qed.

Lemma consistent_afterLoadEffect (p : Props) : consistent p (afterLoadEffect p).
Proof.
  unfold afterLoadEffect.
  destruct (_ || _); repeat split; reflexivity.
Qed.

(** Every state an instance can be in has its two debounce instances as
    made at mount, and only the timer of its mode armed. *)
Lemma life_consistent (p : Props) (evs : list Event) (st : State)
    (l : list Action) :
  life p evs = Some (st, l) -> consistent p st.
Proof.
  rewrite life_runs.
  destruct (run p evs _) as [[st2 l2]|] eqn:R; [|discriminate].
  intros [= <- _]. eapply run_consistent; [exact R|].
  apply consistent_arm, consistent_afterLoadEffect.
Qed.

Lemma due_yes {A : Type} (d : Debounce.t A) (t dl : nat) (a : A) :
  Debounce.pending d = Some (dl, a) -> dl <= t ->
  Debounce.due t d = Some a.
Proof.
  intros H Hle. unfold Debounce.due. rewrite H.
  now rewrite (proj2 (Nat.leb_le dl t) Hle).
Qed.


Lemma due_none {A : Type} (d : Debounce.t A) (t : nat) :
  Debounce.pending d = None -> Debounce.due t d = None.
Proof. intros H. unfold Debounce.due. now rewrite H. Qed.

Lemma afterSave_debouncedContentChange (p : Props) (st : State) :
  debouncedContentChange (afterSave p st) = debouncedContentChange st.
Proof.
  unfold afterSave. destruct (hasNoteId p); [|reflexivity].
  apply startSaving_timers.
Qed.

(** With no content-change timer armed, the clock only concerns the save
    timer. *)
Lemma elapsed_save_only (p : Props) (ms : nat) (st : State) :
  Debounce.pending (debouncedContentChange st) = None ->
  elapsed p ms st = firedSave p (withNow (now st + ms) st).
Proof.
  intros H. unfold elapsed, contentChangeFirst, Debounce.deadline.
  rewrite H. cbv zeta.
  assert (E : firedContentChange p (fst (firedSave p (withNow (now st + ms) st)))
              = (fst (firedSave p (withNow (now st + ms) st)), [])).
  { unfold firedContentChange. rewrite due_none; [reflexivity|].
    unfold firedSave. destruct (Debounce.due _ _) as [[[c t] l]|]; cbn [fst].
    - rewrite afterSave_debouncedContentChange. exact H.
    - exact H. }
  rewrite E. cbn [fst snd]. rewrite app_nil_r.
  now destruct (firedSave p _).
Qed.

(** With no save timer armed, the clock only concerns the content-change
    timer. *)
Lemma elapsed_contentChange_only (p : Props) (ms : nat) (st : State) :
  Debounce.pending (debouncedSave st) = None ->
  elapsed p ms st = firedContentChange p (withNow (now st + ms) st).
Proof.
  intros H. unfold elapsed, contentChangeFirst, Debounce.deadline.
  rewrite H.
  assert (E : firedSave p (withNow (now st + ms) st)
              = (withNow (now st + ms) st, [])).
  { unfold firedSave. now rewrite due_none. }
  destruct (Debounce.pending (debouncedContentChange st)) as [[t1 a1]|];
    cbv zeta; rewrite E; cbn [fst snd app];
    now destruct (firedContentChange p _).
Qed.

Lemma firedSave_due (p : Props) (st : State) (dl : nat) (c t g : string) :
  Debounce.pending (debouncedSave st) = Some (dl, (c, t, g)) ->
  dl <= now st ->
  firedSave p st =
    (afterSave p (withDebouncedSave (Debounce.clear (debouncedSave st)) st),
     saveLog p c t g
       (withDebouncedSave (Debounce.clear (debouncedSave st)) st)).
Proof.
  intros H Hle. unfold firedSave. now rewrite (due_yes _ _ _ _ H Hle).
Qed.


(** ** The effect of the first commit *)

(** C10: with [noteId] set and [initialData] given, [isLoading] is false
    from the start, so the edit effect of the first commit (run on the
    untouched initial values, no setter having been called) arms
    [debouncedSave] with the initial content, title and [logoText], due 1000
    ms after mount; once that time has passed the PUT with exactly these
    values goes out, although nothing was typed.  ([debounce] itself is the
    helper modelled in [Debounce].) *)
Theorem mount_schedules_save (p : Props) (id : string) (d : InitialData) :
  noteId p = Some id -> truthy id = true -> initialData p = Some d ->
  exists st0 l0,
    mount p = (Ret tt, st0, l0)
    /\ isLoading st0 = false
    /\ (value st0 = orEmpty (initContent d)
        /\ title st0 = orEmpty (initTitle d)
        /\ logo st0 = logoText p)
    /\ Debounce.pending (debouncedSave st0)
       = Some (1000, (orEmpty (initContent d), orEmpty (initTitle d),
                      logoText p))
    /\ (requests l0 = [] /\ filter isSetter l0 = [])
    /\ (forall ms, 1000 <= ms ->
          exists st1 l1,
            step p (Elapse ms) st0 = Some (Ret tt, st1, l1)
            /\ requests l1
               = [putRequest p (orEmpty (initContent d))
                    (orEmpty (initTitle d)) (logoText p)]).
Proof.
  intros Hid Htruthy Hinit.
  assert (H : hasNoteId p = true) by exact (truthyOpt_Some _ _ Hid Htruthy).
  assert (HL : afterLoadEffect p = initialState p
               /\ loadEffectLog p = []).
  { unfold afterLoadEffect, loadEffectLog. rewrite Hinit, H. now split. }
  destruct HL as [HL1 HL2].
  assert (Hpend : Debounce.pending (debouncedSave (arm p (initialState p)))
                  = Some (1000, (orEmpty (initContent d),
                                 orEmpty (initTitle d), logoText p))).
  { rewrite arm_debouncedSave, H. unfold initialState.
    cbn [isLoading value title logo now debouncedSave]. rewrite Hinit.
    reflexivity. }
  assert (Hcc : Debounce.pending
                  (debouncedContentChange (arm p (initialState p))) = None).
  { rewrite arm_debouncedContentChange, H. reflexivity. }
  exists (arm p (initialState p)), (effectLog p (initialState p)).
  split; [now rewrite mount_runs, HL1, HL2|].
  split; [rewrite arm_isLoading; cbn; now rewrite Hinit|].
  split; [rewrite arm_value, arm_title, arm_logo; cbn; now rewrite Hinit|].
  split; [exact Hpend|].
  split.
  { split; [apply requests_effectLog|].
    unfold effectLog, notifications.
    destruct (textareaRef p _), (onTitleChange p), (onContentChange p),
      (hasNoteId p); reflexivity. }
  intros ms Hms. rewrite step_runs. do 2 eexists. split; [reflexivity|].
  rewrite (elapsed_save_only p ms _ Hcc).
  erewrite firedSave_due; [| exact Hpend |].
  - cbn [snd]. now rewrite requests_saveLog, H.
  - cbn [now withNow]. rewrite arm_now. cbn [now initialState]. lia.
Qed.

Lemma mount_schedules_save_witness :
  (noteId preloadedProps = Some "n1" /\ truthy "n1" = true)
  /\ exists st0 l0,
       mount preloadedProps = (Ret tt, st0, l0)
       /\ Debounce.pending (debouncedSave st0)
          = Some (1000, ("milk", "Groceries", "NoteSpace"))
       /\ filter isSetter l0 = [].
Proof.
  split; [now split|].
  destruct (mount_schedules_save preloadedProps "n1"
              {| initTitle := Some "Groceries"; initContent := Some "milk" |}
              eq_refl eq_refl eq_refl)
    as (st0 & l0 & Hm & _ & _ & Hp & (_ & Hs) & _).
  exists st0, l0. repeat split; assumption.
Defined.

(** ** Homepage mode *)




(** ** The expired note *)

Lemma render_disabled (p : Props) (st : State) :
  isDisabled p = true -> hasInputs (render p st) = false.
Proof.
  intros H. unfold render. rewrite H. now destruct (isLoading st).
Qed.

Lemma textareaRef_disabled (p : Props) (st : State) :
  isDisabled p = true -> textareaRef p st = false.
Proof.
  intros H. unfold textareaRef. rewrite (render_disabled p st H).
  apply andb_false_r.
Qed.

Lemma rendered_enabled (p : Props) (st st1 st' : State) (l1 l : list Action)
    (o : Outcome unit) :
  rendered p st st1 l1 = (o, st', l) ->
  exists l', rendered (enabled p) st st1 l1 = (o, st', l')
             /\ requests l' = requests l.
Proof.
  unfold rendered. destruct (mounted st1 && depsChanged st st1);
    intros [= <- <- <-].
  - exists (l1 ++ effectLog (enabled p) st1). split; [reflexivity|].
    now rewrite !requests_app, !requests_effectLog.
  - now exists l1.
Qed.

(** A step of a disabled instance is a step of the enabled one, with the
    same requests. *)
Lemma step_enabled (p : Props) (ev : Event) (st st' : State)
    (o : Outcome unit) (l : list Action) :
  isDisabled p = true ->
  step p ev st = Some (o, st', l) ->
  exists l', step (enabled p) ev st = Some (o, st', l')
             /\ requests l' = requests l.
Proof.
  intros Hd. rewrite !step_runs. destruct ev as [s|s|g|ms|r|r|].
  - now rewrite (textareaRef_disabled p st Hd).
  - now rewrite (textareaRef_disabled p st Hd).
  - destruct (mounted st); [|discriminate]. intros [= S].
    destruct (rendered_enabled _ _ _ _ _ _ _ S) as (l' & -> & E).
    now exists l'.
  - intros [= <- <- <-]. now eexists.
  - destruct (loadInFlight st); [|discriminate]. intros [= S].
    destruct (rendered_enabled _ _ _ _ _ _ _ S) as (l' & -> & E).
    now exists l'.
  - destruct (savesInFlight st); [discriminate|]. intros [= <- <- <-].
    now eexists.
  - destruct (mounted st); [|discriminate]. intros [= <- <- <-].
    now eexists.
Qed.

Lemma run_enabled (p : Props) (evs : list Event) :
  isDisabled p = true ->
  forall (st st' : State) (l : list Action),
    run p evs st = Some (st', l) ->
    exists l', run (enabled p) evs st = Some (st', l')
               /\ requests l' = requests l.
Proof.
  intros Hd. induction evs as [|ev evs IH]; intros st st' l; cbn [run].
  - intros [= <- <-]. now exists [].
  - destruct (step p ev st) as [[[[[]|e] st1] l1]|] eqn:S; try discriminate.
    destruct (run p evs st1) as [[st2 l2]|] eqn:R; [|discriminate].
    intros [= <- <-].
    destruct (step_enabled p ev st st1 _ l1 Hd S) as (l1' & -> & E1).
    destruct (IH st1 st2 l2 R) as (l2' & -> & E2).
    exists (l1' ++ l2'). split; [reflexivity|].
    now rewrite !requests_app, E1, E2.
Qed.

(** C2, as the code has it: while [isDisabled] is true no render shows the
    title input or the textarea, so no edit can reach the component; the
    flag is read nowhere else, and over any sequence of events the instance
    sends the very requests it would send with [isDisabled] false: the GET
    of the load effect when [noteId] is set and [initialData] is absent, and
    the PUTs of the debounced save. *)
Theorem disabled_editor_gates_rendering_only (p : Props) (evs : list Event)
    (st : State) (l : list Action) :
  isDisabled p = true ->
  life p evs = Some (st, l) ->
  hasInputs (render p st) = false
  /\ (forall s, step p (EditContent s) st = None
                /\ step p (EditTitle s) st = None)
  /\ (exists l', life (enabled p) evs = Some (st, l')
                 /\ requests l' = requests l)
  /\ (hasNoteId p = true -> initialData p = None ->
      sentGets l = [getRequest p]).
Proof.
  intros Hd Hlife. split; [exact (render_disabled p st Hd)|]. split.
  { intros s. rewrite !step_runs.
    now rewrite (textareaRef_disabled p st Hd). }
  split.
  - revert Hlife. rewrite !life_runs.
    destruct (run p evs _) as [[st2 l2]|] eqn:R; [|discriminate].
    intros [= <- <-].
    destruct (run_enabled p evs Hd _ _ _ R) as (l' & R' & E).
    change (arm (enabled p) (afterLoadEffect (enabled p)))
      with (arm p (afterLoadEffect p)).
    rewrite R'. eexists. split; [reflexivity|].
    rewrite !requests_app, !requests_effectLog, E. reflexivity.
  - intros H Hinit. exact (life_single_get p evs st l H Hinit Hlife).
Qed.

Lemma disabled_editor_gates_rendering_only_witness :
  isDisabled expiredProps = true
  /\ hasInputs (render expiredProps (snd (fst (mount expiredProps)))) = false
  /\ sentGets (snd (mount expiredProps) ++ []) = [getRequest expiredProps].
Proof.
  split; [reflexivity|].
  pose proof (disabled_editor_gates_rendering_only expiredProps []
                (snd (fst (mount expiredProps)))
                (snd (mount expiredProps) ++ []) eq_refl eq_refl) as H.
  split; [exact (proj1 H)|].
  exact (proj2 (proj2 (proj2 H)) eq_refl eq_refl).
Defined.

(** C2 fails as stated: a disabled instance with [noteId] set sends the GET
    at mount when it has no [initialData], and sends the PUT of the
    mount-time save, one second after mount, when it has. *)
Lemma disabled_editor_still_requests :
  (isDisabled expiredProps = true
   /\ sentGets (snd (mount expiredProps)) = [getRequest expiredProps]
   /\ method (getRequest expiredProps) = GET)
  /\ (isDisabled expiredPreloadedProps = true
      /\ exists st l,
           life expiredPreloadedProps [Elapse 1000] = Some (st, l)
           /\ sentPuts l
              = [putRequest expiredPreloadedProps "milk" "Groceries"
                   "NoteSpace"]).
Proof.
  split; [repeat split|]. split; [reflexivity|].
  do 2 eexists. split; reflexivity.
Qed.

(** ** Bursts of edits *)

Lemma depsChanged_false (a b : State) :
  depsChanged a b = false -> deps a = deps b.
Proof.
  unfold depsChanged, deps. intros H. apply negb_false_iff in H.
  apply andb_prop in H as [H Hl]. apply andb_prop in H as [Hv Ht].
  apply String.eqb_eq in Hv, Ht, Hl. now rewrite Hv, Ht, Hl.
Qed.








(** ** Beyond the single handlers: what holds over a whole life *)

(** X1: no exception leaves the component.  The effects of the first commit
    return normally, and so does the handler of every event that can happen,
    whatever the network answers: a rejected fetch, a body that does not
    parse, a response that says success and carries no [data]. *)
Theorem handlers_never_throw (p : Props) (ev : Event) (st : State) :
  fst (fst (mount p)) = Ret tt
  /\ match step p ev st with
     | Some (o, _, _) => o = Ret tt
     | None => True
     end.
Proof.
  split; [now rewrite mount_runs|].
  destruct (step p ev st) as [[[o st'] l]|] eqn:S; [|exact I].
  exact (step_returns p ev st st' o l S).
Qed.

Lemma url_of_save (p : Props) (r : Request) :
  isSaveRequest p r -> url r = noteUrl p.
Proof. now intros [_ (c & t & l & ->)]. Qed.

(** X2: the requests of a life are, in this order, the GET of the load
    effect, present exactly when [noteId] is set and no [initialData] was
    given, and then nothing but PUTs of [saveNote]; every one of them goes to
    the one address [/api/note/{noteId}]. *)
Theorem request_stream (p : Props) (evs : list Event) (st : State)
    (l : list Action) :
  life p evs = Some (st, l) ->
  exists saves,
    requests l
    = (if negb (hasNoteId p) || isSome (initialData p)
       then []
       else [getRequest p]) ++ saves
    /\ Forall (isSaveRequest p) saves
    /\ Forall (fun r => url r = noteUrl p) (requests l).
Proof.
  rewrite life_runs.
  destruct (run p evs _) as [[st2 l2]|] eqn:R; [|discriminate].
  intros [= _ <-]. exists (requests l2).
  pose proof (run_requests p evs _ _ _ R) as Hs.
  assert (E : requests ((loadEffectLog p ++ effectLog p (afterLoadEffect p))
                          ++ l2)
              = (if negb (hasNoteId p) || isSome (initialData p)
                 then [] else [getRequest p]) ++ requests l2).
  { rewrite !requests_app, requests_effectLog, app_nil_r.
    unfold loadEffectLog. now destruct (_ || _). }
  split; [exact E|]. split; [exact Hs|].
  rewrite E. apply Forall_app. split.
  - destruct (_ || _); repeat constructor.
  - eapply Forall_impl; [|exact Hs]. intros r. apply url_of_save.
Qed.

Lemma request_stream_witness :
  life backedProps sampleSession
  = Some (fst sampleSessionEnd, snd sampleSessionEnd)
  /\ exists saves,
       requests (snd sampleSessionEnd) = [getRequest backedProps] ++ saves
       /\ Forall (isSaveRequest backedProps) saves
       /\ Forall (fun r => url r = "/api/note/n1")
            (requests (snd sampleSessionEnd)).
Proof.
  split; [reflexivity|].
  exact (request_stream backedProps sampleSession (fst sampleSessionEnd)
           (snd sampleSessionEnd) eq_refl).
Defined.

(** ** Flags and pending requests *)

Lemma arm_loadInFlight (p : Props) (st : State) :
  loadInFlight (arm p st) = loadInFlight st.
Proof. arm_cases p st. Qed.

Lemma arm_savesInFlight (p : Props) (st : State) :
  savesInFlight (arm p st) = savesInFlight st.
Proof. arm_cases p st. Qed.

Lemma flagsTrack_same_flags (p : Props) (st st' : State) :
  isMounted st' = isMounted st -> mounted st' = mounted st ->
  isLoading st' = isLoading st -> loadInFlight st' = loadInFlight st ->
  isSaving st' = isSaving st -> savesInFlight st' = savesInFlight st ->
  flagsTrack p st -> flagsTrack p st'.
Proof. unfold flagsTrack. now intros -> -> -> -> -> ->. Qed.

Lemma flagsTrack_rendered (p : Props) (st st1 st' : State)
    (l1 l : list Action) (o : Outcome unit) :
  rendered p st st1 l1 = (o, st', l) ->
  flagsTrack p st1 -> flagsTrack p st'.
Proof.
  unfold rendered. destruct (_ && _); intros [= _ <- _]; [|auto].
  apply flagsTrack_same_flags.
  - apply arm_isMounted.
  - apply arm_mounted.
  - apply arm_isLoading.
  - apply arm_loadInFlight.
  - apply arm_isSaving.
  - apply arm_savesInFlight.
Qed.

Lemma flagsTrack_firedSave (p : Props) (st : State) :
  flagsTrack p st -> flagsTrack p (fst (firedSave p st)).
Proof.
  unfold firedSave.
  destruct (Debounce.due _ _) as [[[c t] l]|]; [|auto]. cbn [fst].
  unfold afterSave, startSaving, flagsTrack.
  destruct st as [? ? ? sv im ? mt ? ? ? ? sf]; cbn.
  intros (H1 & H2 & H3 & H4).
  subst im. destruct (hasNoteId p); [|auto].
  destruct mt; cbn; repeat split; intros; auto; try lia;
    try discriminate; now apply H4.
Qed.

Lemma flagsTrack_firedContentChange (p : Props) (st : State) :
  flagsTrack p st -> flagsTrack p (fst (firedContentChange p st)).
Proof.
  unfold firedContentChange.
  destruct (Debounce.due _ _) as [[c t]|]; auto.
Qed.

Lemma flagsTrack_afterLoad (p : Props) (r : LoadOutcome) (st : State) :
  flagsTrack p st ->
  flagsTrack p (afterLoad r (withLoadInFlight false st)).
Proof.
  unfold afterLoad, flagsTrack.
  destruct st as [? ? ? sv im ? mt ? ? ? ? sf]; cbn.
  intros (H1 & H2 & H3 & H4). destruct mt.
  - destruct r as [| |[[[|]|] [d|]]]; cbn; repeat split; auto.
  - cbn. repeat split; intros; auto; try discriminate; now apply H4.
Qed.

Lemma flagsTrack_afterSaveDone (p : Props) (n : nat) (st : State) :
  flagsTrack p st ->
  flagsTrack p (afterSaveDone (withSavesInFlight n st)).
Proof.
  unfold afterSaveDone, flagsTrack.
  destruct st as [? ? ? sv im ? mt ? ? ? ? sf]; cbn.
  intros (H1 & H2 & H3 & H4). subst im.
  destruct mt; cbn; repeat split; intros; auto; try discriminate;
    now apply H4.
Qed.

Lemma step_flagsTrack (p : Props) (ev : Event) (st st' : State)
    (o : Outcome unit) (l : list Action) :
  step p ev st = Some (o, st', l) ->
  flagsTrack p st -> flagsTrack p st'.
Proof.
  rewrite step_runs. intros S H. destruct ev as [s|s|g|ms|r|r|].
  - destruct (textareaRef p st); [|discriminate]. injection S as S.
    exact (flagsTrack_rendered _ _ _ _ _ _ _ S H).
  - destruct (textareaRef p st); [|discriminate]. injection S as S.
    exact (flagsTrack_rendered _ _ _ _ _ _ _ S H).
  - destruct (mounted st); [|discriminate]. injection S as S.
    exact (flagsTrack_rendered _ _ _ _ _ _ _ S H).
  - injection S as _ <- _. unfold elapsed.
    destruct (contentChangeFirst st); cbn [fst].
    + now apply flagsTrack_firedSave, flagsTrack_firedContentChange.
    + now apply flagsTrack_firedContentChange, flagsTrack_firedSave.
  - destruct (loadInFlight st); [|discriminate]. injection S as S.
    apply (flagsTrack_rendered _ _ _ _ _ _ _ S).
    now apply flagsTrack_afterLoad.
  - destruct (savesInFlight st) as [|n]; [discriminate|].
    injection S as _ <- _. now apply flagsTrack_afterSaveDone.
  - destruct (mounted st); [|discriminate]. injection S as _ <- _.
    destruct H as (H1 & H2 & H3 & H4).
    repeat split; intros; try discriminate; now apply H4.
Qed.

Lemma run_flagsTrack (p : Props) (evs : list Event) :
  forall (st st' : State) (l : list Action),
    run p evs st = Some (st', l) -> flagsTrack p st -> flagsTrack p st'.
Proof.
  induction evs as [|ev evs IH]; intros st st' l; cbn [run].
  - now intros [= <- _].
  - destruct (step p ev st) as [[[[[]|e] st1] l1]|] eqn:S; try discriminate.
    destruct (run p evs st1) as [[st2 l2]|] eqn:R; [|discriminate].
    intros [= <- _] H. eapply IH; [exact R|].
    eapply step_flagsTrack; [exact S|exact H].
Qed.

Lemma life_flagsTrack (p : Props) (evs : list Event) (st : State)
    (l : list Action) :
  life p evs = Some (st, l) -> flagsTrack p st.
Proof.
  rewrite life_runs.
  destruct (run p evs _) as [[st2 l2]|] eqn:R; [|discriminate].
  intros [= <- _]. eapply run_flagsTrack; [exact R|].
  apply (flagsTrack_same_flags p (afterLoadEffect p)).
  - apply arm_isMounted.
  - apply arm_mounted.
  - apply arm_isLoading.
  - apply arm_loadInFlight.
  - apply arm_isSaving.
  - apply arm_savesInFlight.
  - unfold afterLoadEffect, flagsTrack.
    destruct (negb (hasNoteId p) || isSome (initialData p)) eqn:E; cbn.
    + repeat split; intros; auto; try discriminate;
        destruct (hasNoteId p), (isSome (initialData p)); cbn in *;
        try reflexivity; discriminate.
    + repeat split; intros; auto; discriminate.
Qed.

(** X3: on a mounted instance the loading placeholder is up exactly while
    the load request is pending: [isLoading] is true from mount until the
    one completion and never afterwards.  An instance that has no [noteId],
    or was given [initialData], is never loading at all, mounted or not. *)
Theorem loading_tracks_the_load_request (p : Props) (evs : list Event)
    (st : State) (l : list Action) :
  life p evs = Some (st, l) ->
  (mounted st = true -> isLoading st = loadInFlight st)
  /\ (hasNoteId p = false \/ initialData p <> None ->
      isLoading st = false /\ render p st <> LoadingPlaceholder).
Proof.
  intros Hlife. destruct (life_flagsTrack p evs st l Hlife)
    as (_ & H2 & _ & H4).
  split; [exact H2|]. intros Hmode.
  assert (E : negb (hasNoteId p) || isSome (initialData p) = true).
  { destruct Hmode as [-> | Hi]; [reflexivity|].
    destruct (initialData p); [apply orb_true_r|now elim Hi]. }
  destruct (H4 E) as [HL _]. split; [exact HL|].
  unfold render. rewrite HL. now destruct (isDisabled p).
Qed.

Lemma loading_tracks_the_load_request_witness :
  life backedProps sampleSession
  = Some (fst sampleSessionEnd, snd sampleSessionEnd)
  /\ (mounted (fst sampleSessionEnd) = true ->
      isLoading (fst sampleSessionEnd) = loadInFlight (fst sampleSessionEnd)).
Proof.
  split; [reflexivity|].
  exact (proj1 (loading_tracks_the_load_request backedProps sampleSession
                  (fst sampleSessionEnd) (snd sampleSessionEnd) eq_refl)).
Defined.



(** X5: while the load request is pending nothing can be typed: the title
    input and the textarea are not on screen, so neither edit event can
    happen, and the answer of the load never lands on text the user has
    typed in the meantime. *)
Theorem no_typing_while_load_pending (p : Props) (evs : list Event)
    (st : State) (l : list Action) (s : string) :
  life p evs = Some (st, l) ->
  loadInFlight st = true ->
  (mounted st = true -> render p st = LoadingPlaceholder)
  /\ step p (EditContent s) st = None
  /\ step p (EditTitle s) st = None.
Proof.
  intros Hlife Hfl. destruct (life_flagsTrack p evs st l Hlife)
    as (_ & H2 & _ & _).
  assert (HL : isLoading st = true \/ mounted st = false).
  { destruct (mounted st); [left|now right]. now rewrite (H2 eq_refl). }
  assert (T : textareaRef p st = false).
  { unfold textareaRef, render. destruct HL as [-> | ->];
      [apply andb_false_r|reflexivity]. }
  rewrite !step_runs, T. repeat split.
  intros Hm. unfold render. now rewrite (H2 Hm), Hfl.
Qed.

Lemma no_typing_while_load_pending_witness :
  (life backedProps [] = Some (snd (fst (mount backedProps)),
                               snd (mount backedProps) ++ [])
   /\ loadInFlight (snd (fst (mount backedProps))) = true)
  /\ step backedProps (EditContent "milk")
       (snd (fst (mount backedProps))) = None.
Proof.
  split; [now split|].
  exact (proj1 (proj2 (no_typing_while_load_pending backedProps []
                         (snd (fst (mount backedProps)))
                         (snd (mount backedProps) ++ []) "milk"
                         eq_refl eq_refl))).
Defined.

(** ** Calls of the parent's callbacks *)

Ltac plain_log :=
  repeat (apply Forall_cons; [exact I|]); apply Forall_nil.

Lemma expected_title (p : Props) (f : Callback) (t : string) :
  onTitleChange p = Some f -> expectedCall p (Invoke f [t]).
Proof. intros H. left. split; [exact H|now exists t]. Qed.

Lemma expected_content (p : Props) (f : Callback) (v : string) :
  onContentChange p = Some f -> hasNoteId p = true ->
  expectedCall p (Invoke f [v]).
Proof. intros C H. right. left. repeat split; auto. now exists v. Qed.

Lemma expected_effectLog (p : Props) (st : State) :
  Forall (expectedCall p) (effectLog p st).
Proof.
  unfold effectLog, notifications.
  destruct (textareaRef p st), (onTitleChange p) eqn:T,
    (onContentChange p) eqn:C, (hasNoteId p) eqn:H; cbn [app];
    repeat apply Forall_cons; try apply Forall_nil; try exact I;
    first [now apply expected_title | now apply expected_content].
Qed.

Lemma expected_loadLog (p : Props) (r : LoadOutcome) :
  Forall (expectedCall p) (loadLog r).
Proof. destruct r as [| |[[[|]|] [d|]]]; cbn; plain_log. Qed.

Lemma expected_saveDoneLog (p : Props) (r : FetchOutcome) (st : State) :
  Forall (expectedCall p) (saveDoneLog r st).
Proof.
  unfold saveDoneLog. destruct r, (isMounted st); cbn; plain_log.
Qed.

Lemma expected_firedSave (p : Props) (st : State) :
  Forall (expectedCall p) (snd (firedSave p st)).
Proof.
  unfold firedSave.
  destruct (Debounce.due _ _) as [[[c t] l]|]; [|constructor].
  cbn [snd]. unfold saveLog. cbn [isMounted withDebouncedSave].
  destruct (hasNoteId p), (isMounted st); cbn; plain_log.
Qed.

Lemma expected_firedContentChange (p : Props) (st : State) :
  (hasNoteId p = true ->
   Debounce.pending (debouncedContentChange st) = None) ->
  Forall (expectedCall p) (snd (firedContentChange p st)).
Proof.
  intros N. unfold firedContentChange.
  destruct (hasNoteId p) eqn:H.
  - rewrite (due_none _ _ (N eq_refl)). constructor.
  - destruct (Debounce.due _ _) as [[c t]|]; [|constructor]. cbn [snd].
    destruct (onContentChange p) eqn:C; [|constructor].
    apply Forall_cons; [|constructor].
    right. right. repeat split; auto. now exists c, t.
Qed.

Lemma expected_rendered (p : Props) (st st1 st' : State)
    (l1 l : list Action) (o : Outcome unit) :
  rendered p st st1 l1 = (o, st', l) ->
  Forall (expectedCall p) l1 -> Forall (expectedCall p) l.
Proof.
  unfold rendered. destruct (_ && _); intros [= _ _ <-] H; [|exact H].
  apply Forall_app. split; [exact H|apply expected_effectLog].
Qed.

Lemma step_expected (p : Props) (ev : Event) (st st' : State)
    (o : Outcome unit) (l : list Action) :
  consistent p st ->
  step p ev st = Some (o, st', l) ->
  Forall (expectedCall p) l.
Proof.
  intros C. rewrite step_runs. destruct ev as [s|s|g|ms|r|r|].
  - destruct (textareaRef p st); [|discriminate]. intros [= S].
    apply (expected_rendered _ _ _ _ _ _ _ S). plain_log.
  - destruct (textareaRef p st); [|discriminate]. intros [= S].
    apply (expected_rendered _ _ _ _ _ _ _ S). plain_log.
  - destruct (mounted st); [|discriminate]. intros [= S].
    apply (expected_rendered _ _ _ _ _ _ _ S). constructor.
  - intros [= _ _ <-]. unfold elapsed.
    assert (C0 : consistent p (withNow (now st + ms) st))
      by exact (consistent_same_timers p _ _ eq_refl eq_refl C).
    destruct (contentChangeFirst st); cbn [snd]; apply Forall_app; split.
    + apply expected_firedContentChange. apply C0.
    + apply expected_firedSave.
    + apply expected_firedSave.
    + apply expected_firedContentChange.
      apply (consistent_firedSave p _ C0).
  - destruct (loadInFlight st); [|discriminate]. intros [= S].
    apply (expected_rendered _ _ _ _ _ _ _ S), expected_loadLog.
  - destruct (savesInFlight st); [discriminate|]. intros [= _ _ <-].
    apply expected_saveDoneLog.
  - destruct (mounted st); [|discriminate]. intros [= _ _ <-]. constructor.
Qed.

Lemma run_expected (p : Props) (evs : list Event) :
  forall (st st' : State) (l : list Action),
    consistent p st ->
    run p evs st = Some (st', l) ->
    Forall (expectedCall p) l.
Proof.
  induction evs as [|ev evs IH]; intros st st' l C; cbn [run].
  - intros [= _ <-]. constructor.
  - destruct (step p ev st) as [[[[[]|e] st1] l1]|] eqn:S; try discriminate.
    destruct (run p evs st1) as [[st2 l2]|] eqn:R; [|discriminate].
    intros [= _ <-]. apply Forall_app. split.
    + exact (step_expected _ _ _ _ _ _ C S).
    + exact (IH _ _ _ (step_consistent _ _ _ _ _ _ S C) R).
Qed.

(** X6: every call of a parent callback, over a whole life, is one of three
    kinds: the title callback with the title alone; the content callback
    with the content alone, and then [noteId] is set; the content callback
    with content and title, and then [noteId] is not set.  So a callback that
    was not handed down is never called, and the one content callback is
    called with one argument on a stored note and with two on the homepage,
    never both ways in one life. *)
Theorem callback_calls_by_mode (p : Props) (evs : list Event) (st : State)
    (l : list Action) (f : Callback) (args : list string) :
  life p evs = Some (st, l) ->
  In (Invoke f args) l ->
  (onTitleChange p = Some f /\ exists t, args = [t])
  \/ (onContentChange p = Some f /\ hasNoteId p = true
      /\ exists v, args = [v])
  \/ (onContentChange p = Some f /\ hasNoteId p = false
      /\ exists c t, args = [c; t]).
Proof.
  rewrite life_runs.
  destruct (run p evs _) as [[st2 l2]|] eqn:R; [|discriminate].
  intros [= _ <-] Hin.
  assert (F : Forall (expectedCall p)
                ((loadEffectLog p ++ effectLog p (afterLoadEffect p)) ++ l2)).
  { apply Forall_app. split; [apply Forall_app; split|].
    - unfold loadEffectLog. destruct (_ || _); plain_log.
    - apply expected_effectLog.
    - eapply run_expected; [|exact R].
      apply consistent_arm, consistent_afterLoadEffect. }
  rewrite Forall_forall in F. exact (F _ Hin).
Qed.

Lemma callback_calls_by_mode_witness :
  (life backedProps sampleSession
   = Some (fst sampleSessionEnd, snd sampleSessionEnd)
   /\ In (Invoke (Cb "onContentChange") ["milk, eggs"])
        (snd sampleSessionEnd))
  /\ ((onTitleChange backedProps = Some (Cb "onContentChange")
       /\ exists t, ["milk, eggs"] = [t])
      \/ (onContentChange backedProps = Some (Cb "onContentChange")
          /\ hasNoteId backedProps = true
          /\ exists v, ["milk, eggs"] = [v])
      \/ (onContentChange backedProps = Some (Cb "onContentChange")
          /\ hasNoteId backedProps = false
          /\ exists c t, ["milk, eggs"] = [c; t])).
Proof.
  assert (Hin : In (Invoke (Cb "onContentChange") ["milk, eggs"])
                  (snd sampleSessionEnd)).
  { vm_compute. do 13 right. now left. }
  split; [now split|].
  exact (callback_calls_by_mode backedProps sampleSession
           (fst sampleSessionEnd) (snd sampleSessionEnd)
           (Cb "onContentChange") ["milk, eggs"] eq_refl Hin).
Defined.

(** ** What a timer carries *)


Lemma fresh_same (p : Props) (st st' : State) :
  debouncedSave st' = debouncedSave st ->
  debouncedContentChange st' = debouncedContentChange st ->
  deps st' = deps st ->
  (isLoading st' = true -> isLoading st = true) ->
  fresh p st -> fresh p st'.
Proof.
  unfold fresh, deps. intros -> -> [= -> -> ->] HL (F1 & F2 & F3 & F4).
  repeat split; auto.
Qed.

Lemma fresh_arm (p : Props) (st0 st1 : State) :
  debouncedSave st1 = debouncedSave st0 ->
  debouncedContentChange st1 = debouncedContentChange st0 ->
  (isLoading st1 = true -> isLoading st0 = true) ->
  consistent p st1 -> fresh p st0 ->
  fresh p (arm p st1).
Proof.
  intros Hs Hc HL (_ & N1 & N2) (F1 & F2 & F3 & F4).
  unfold fresh, deps.
  rewrite arm_debouncedSave, arm_debouncedContentChange, arm_value,
    arm_title, arm_logo, arm_isLoading, Hs, Hc.
  rewrite Hs in N1. rewrite Hc in N2.
  destruct (hasNoteId p); cbn [negb andb].
  - specialize (N2 eq_refl).
    destruct (isLoading st1) eqn:L; cbn [negb]; repeat split.
    + intros dl a. rewrite (F3 (HL eq_refl)). discriminate.
    + intros dl a. rewrite N2. discriminate.
    + intros _. exact (F3 (HL eq_refl)).
    + intros _. exact N2.
    + intros dl a [= _ <-]. reflexivity.
    + intros dl a. rewrite N2. discriminate.
    + discriminate.
    + intros _. exact N2.
  - specialize (N1 eq_refl).
    destruct (onContentChange p) eqn:C; cbn [isSome]; repeat split.
    + intros dl a. rewrite N1. discriminate.
    + intros dl a [= _ <-]. reflexivity.
    + intros _. exact N1.
    + discriminate.
    + intros dl a. rewrite N1. discriminate.
    + intros dl a. rewrite (F4 eq_refl). discriminate.
    + intros _. exact N1.
    + intros _. exact (F4 eq_refl).
Qed.

Lemma fresh_rendered (p : Props) (st st1 st' : State) (l1 l : list Action)
    (o : Outcome unit) :
  rendered p st st1 l1 = (o, st', l) ->
  debouncedSave st1 = debouncedSave st ->
  debouncedContentChange st1 = debouncedContentChange st ->
  (isLoading st1 = true -> isLoading st = true) ->
  (mounted st1 = false -> deps st1 = deps st) ->
  consistent p st1 -> fresh p st ->
  fresh p st'.
Proof.
  unfold rendered. intros R Hs Hc HL Hm C F.
  destruct (mounted st1) eqn:M; cbn [andb] in R.
  - destruct (depsChanged st st1) eqn:D; injection R as _ <- _.
    + exact (fresh_arm p st st1 Hs Hc HL C F).
    + apply depsChanged_false in D.
      exact (fresh_same p st st1 Hs Hc (eq_sym D) HL F).
  - injection R as _ <- _.
    exact (fresh_same p st st1 Hs Hc (Hm eq_refl) HL F).
Qed.

Lemma fresh_firedSave (p : Props) (st : State) :
  fresh p st -> fresh p (fst (firedSave p st)).
Proof.
  intros (F1 & F2 & F3 & F4). unfold firedSave.
  destruct (Debounce.due _ _) as [[[c t] l]|]; [|repeat split; auto].
  cbn [fst]. unfold afterSave, startSaving.
  destruct (hasNoteId p); [destruct (isMounted _ && mounted _)|];
    repeat split; auto; discriminate.
Qed.

Lemma fresh_firedContentChange (p : Props) (st : State) :
  fresh p st -> fresh p (fst (firedContentChange p st)).
Proof.
  intros (F1 & F2 & F3 & F4). unfold firedContentChange.
  destruct (Debounce.due _ _) as [[c t]|]; repeat split; auto; discriminate.
Qed.

Lemma afterLoad_facts (r : LoadOutcome) (st : State) :
  (isLoading (afterLoad r st) = true -> isLoading st = true)
  /\ (mounted (afterLoad r st) = false -> deps (afterLoad r st) = deps st).
Proof.
  unfold afterLoad. destruct (mounted st) eqn:M; [|now split].
  destruct r as [| |[[[|]|] [d|]]]; cbn; rewrite ?M; split; discriminate.
Qed.

Lemma step_fresh (p : Props) (ev : Event) (st st' : State)
    (o : Outcome unit) (l : list Action) :
  step p ev st = Some (o, st', l) ->
  consistent p st -> fresh p st -> fresh p st'.
Proof.
  intros S C F. pose proof (step_consistent _ _ _ _ _ _ S C) as C'.
  revert S. rewrite step_runs. destruct ev as [s|s|g|ms|r|r|].
  - destruct (textareaRef p st) eqn:T; [|discriminate]. intros [= S].
    apply (fresh_rendered _ _ _ _ _ _ _ S); auto.
    cbn [mounted withValue withTitle].
    rewrite (textareaRef_mounted _ _ T). discriminate.
  - destruct (textareaRef p st) eqn:T; [|discriminate]. intros [= S].
    apply (fresh_rendered _ _ _ _ _ _ _ S); auto.
    cbn [mounted withValue withTitle].
    rewrite (textareaRef_mounted _ _ T). discriminate.
  - destruct (mounted st) eqn:M; [|discriminate]. intros [= S].
    apply (fresh_rendered _ _ _ _ _ _ _ S); auto.
    cbn [mounted withLogo]. rewrite M. discriminate.
  - intros [= _ <- _]. unfold elapsed.
    assert (F0 : fresh p (withNow (now st + ms) st))
      by (apply (fresh_same p st); auto).
    destruct (contentChangeFirst st); cbn [fst].
    + now apply fresh_firedSave, fresh_firedContentChange.
    + now apply fresh_firedContentChange, fresh_firedSave.
  - destruct (loadInFlight st); [|discriminate]. intros [= S].
    destruct (afterLoad_timers r (withLoadInFlight false st)) as [E1 E2].
    destruct (afterLoad_facts r (withLoadInFlight false st)) as [E3 E4].
    apply (fresh_rendered _ _ _ _ _ _ _ S); auto.
    exact (consistent_same_timers p _ _ E1 E2
             (consistent_same_timers p _ _ eq_refl eq_refl C)).
  - destruct (savesInFlight st) as [|n]; [discriminate|].
    intros [= _ <- _]. unfold afterSaveDone.
    destruct (_ && _); apply (fresh_same p st); auto.
  - destruct (mounted st); [|discriminate]. intros [= _ <- _].
    apply (fresh_same p st); auto.
Qed.

Lemma run_fresh (p : Props) (evs : list Event) :
  forall (st st' : State) (l : list Action),
    run p evs st = Some (st', l) ->
    consistent p st -> fresh p st -> fresh p st'.
Proof.
  induction evs as [|ev evs IH]; intros st st' l; cbn [run].
  - now intros [= <- _].
  - destruct (step p ev st) as [[[[[]|e] st1] l1]|] eqn:S; try discriminate.
    destruct (run p evs st1) as [[st2 l2]|] eqn:R; [|discriminate].
    intros [= <- _] C F. eapply IH; [exact R| |].
    + exact (step_consistent _ _ _ _ _ _ S C).
    + exact (step_fresh _ _ _ _ _ _ S C F).
Qed.

Lemma life_fresh (p : Props) (evs : list Event) (st : State)
    (l : list Action) :
  life p evs = Some (st, l) -> fresh p st.
Proof.
  rewrite life_runs.
  destruct (run p evs _) as [[st2 l2]|] eqn:R; [|discriminate].
  intros [= <- _].
  pose proof (consistent_afterLoadEffect p) as C.
  eapply run_fresh; [exact R|now apply consistent_arm|].
  apply (fresh_arm p (afterLoadEffect p)); auto.
  unfold afterLoadEffect, fresh.
  destruct (_ || _); repeat split; intros; auto; discriminate.
Qed.



(** ** Edits with pauses *)








(** ** Unmount *)

Lemma filter_plain_firedContentChange (p : Props) (st : State) :
  filter (fun a => negb (isSetter a)) (snd (firedContentChange p st))
  = snd (firedContentChange p st).
Proof.
  unfold firedContentChange.
  destruct (Debounce.due _ _) as [[c t]|]; [|reflexivity].
  cbn [snd]. now destruct (onContentChange p).
Qed.

Lemma firedContentChange_unmounted (p : Props) (t : nat) (st : State) :
  snd (firedContentChange p (withNow t (unmounted st)))
  = snd (firedContentChange p (withNow t st))
  /\ fst (firedContentChange p (withNow t (unmounted st)))
     = unmounted (fst (firedContentChange p (withNow t st))).
Proof.
  unfold firedContentChange.
  cbn [now withNow debouncedContentChange unmounted].
  destruct (Debounce.due _ _) as [[c u]|]; now split.
Qed.

Lemma firedSave_unmounted_log (p : Props) (st st0 : State) :
  debouncedSave st0 = debouncedSave st -> now st0 = now st ->
  isMounted st0 = false -> isMounted st = true ->
  snd (firedSave p st0)
  = filter (fun a => negb (isSetter a)) (snd (firedSave p st)).
Proof.
  intros Hd Hn H0 H1. unfold firedSave. rewrite Hd, Hn.
  destruct (Debounce.due _ _) as [[[c t] g]|]; [|reflexivity].
  cbn [snd]. unfold saveLog. cbn [isMounted withDebouncedSave].
  rewrite H0, H1. now destruct (hasNoteId p).
Qed.

Lemma firedContentChange_keeps (p : Props) (st : State) :
  debouncedSave (fst (firedContentChange p st)) = debouncedSave st
  /\ now (fst (firedContentChange p st)) = now st
  /\ isMounted (fst (firedContentChange p st)) = isMounted st.
Proof.
  unfold firedContentChange.
  destruct (Debounce.due _ _) as [[c t]|]; cbn [fst]; repeat split.
Qed.

Lemma firedSave_keeps (p : Props) (st : State) :
  debouncedContentChange (fst (firedSave p st)) = debouncedContentChange st
  /\ now (fst (firedSave p st)) = now st.
Proof.
  unfold firedSave.
  destruct (Debounce.due _ _) as [[[c t] g]|]; [|now split]. cbn [fst].
  unfold afterSave, startSaving.
  destruct (hasNoteId p); [destruct (isMounted _ && mounted _)|];
    now split.
Qed.

Lemma firedContentChange_same_log (p : Props) (st st0 : State) :
  debouncedContentChange st0 = debouncedContentChange st ->
  now st0 = now st ->
  snd (firedContentChange p st0) = snd (firedContentChange p st).
Proof.
  intros Hd Hn. unfold firedContentChange. rewrite Hd, Hn.
  now destruct (Debounce.due _ _) as [[c t]|].
Qed.

(** What the clock brings to an unmounted instance is what it would have
    brought to the mounted one, less the setter calls. *)
Lemma elapsed_unmounted (p : Props) (ms : nat) (st : State) :
  isMounted st = true ->
  snd (elapsed p ms (unmounted st))
  = filter (fun a => negb (isSetter a)) (snd (elapsed p ms st)).
Proof.
  intros Hm. unfold elapsed.
  change (contentChangeFirst (unmounted st)) with (contentChangeFirst st).
  change (now (unmounted st)) with (now st).
  change (withNow (now st + ms) (unmounted st))
    with (unmounted (withNow (now st + ms) st)).
  set (st1 := withNow (now st + ms) st).
  assert (Hm1 : isMounted st1 = true) by exact Hm.
  destruct (contentChangeFirst st); cbn [fst snd]; rewrite filter_app.
  - destruct (firedContentChange_keeps p st1) as (K1 & K2 & K3).
    destruct (firedContentChange_keeps p (unmounted st1)) as (U1 & U2 & U3).
    rewrite filter_plain_firedContentChange. f_equal.
    + now apply firedContentChange_same_log.
    + apply firedSave_unmounted_log.
      * now rewrite U1, K1.
      * now rewrite U2, K2.
      * now rewrite U3.
      * now rewrite K3.
  - rewrite filter_plain_firedContentChange. f_equal.
    + now apply firedSave_unmounted_log.
    + destruct (firedSave_keeps p st1) as (K1 & K2).
      destruct (firedSave_keeps p (unmounted st1)) as (U1 & U2).
      apply firedContentChange_same_log.
      * now rewrite U1, K1.
      * now rewrite U2, K2.
Qed.

Lemma requests_filter_plain (l : list Action) :
  requests (filter (fun a => negb (isSetter a)) l) = requests l.
Proof.
  induction l as [|a l IH]; [reflexivity|].
  destruct a; cbn; now rewrite ?IH.
Qed.

(** X9: unmounting cancels nothing.  Whatever the two timers of a mounted
    instance would have done after [ms] milliseconds, they do the same when
    the instance is unmounted first: the same PUT goes out, the same call of
    the parent's callback is made; only the [setIsSaving] call is left out.
    (With the debounce helper as the spec describes it; the component
    registers no cleanup for its timers.) *)
Theorem unmount_cancels_no_timer (p : Props) (evs : list Event)
    (st : State) (l : list Action) (ms : nat) :
  life p evs = Some (st, l) ->
  mounted st = true ->
  exists sa la sb lb,
    run p [Unmount; Elapse ms] st = Some (sa, la)
    /\ run p [Elapse ms] st = Some (sb, lb)
    /\ la = filter (fun a => negb (isSetter a)) lb
    /\ requests la = requests lb.
Proof.
  intros Hlife Hm.
  destruct (life_flagsTrack p evs st l Hlife) as (H1 & _).
  rewrite Hm in H1.
  assert (E : snd (elapsed p ms (unmounted st)) ++ []
              = filter (fun a => negb (isSetter a))
                  (snd (elapsed p ms st) ++ [])).
  { now rewrite !app_nil_r, (elapsed_unmounted p ms st H1). }
  assert (Ra : run p [Unmount; Elapse ms] st
               = Some (fst (elapsed p ms (unmounted st)),
                       snd (elapsed p ms (unmounted st)) ++ [])).
  { cbn [run]. rewrite (step_runs p Unmount st), Hm.
    now rewrite (step_runs p (Elapse ms)). }
  assert (Rb : run p [Elapse ms] st
               = Some (fst (elapsed p ms st), snd (elapsed p ms st) ++ [])).
  { cbn [run]. now rewrite (step_runs p (Elapse ms)). }
  do 4 eexists. split; [exact Ra|]. split; [exact Rb|].
  split; [exact E|]. now rewrite E, requests_filter_plain.
Qed.

Lemma unmount_cancels_no_timer_witness :
  (life preloadedProps [] = Some (snd (fst (mount preloadedProps)),
                                  snd (mount preloadedProps) ++ [])
   /\ mounted (snd (fst (mount preloadedProps))) = true)
  /\ exists sa la sb lb,
       run preloadedProps [Unmount; Elapse 1000]
         (snd (fst (mount preloadedProps))) = Some (sa, la)
       /\ run preloadedProps [Elapse 1000]
            (snd (fst (mount preloadedProps))) = Some (sb, lb)
       /\ la = filter (fun a => negb (isSetter a)) lb
       /\ requests la = requests lb.
Proof.
  split; [now split|].
  exact (unmount_cancels_no_timer preloadedProps []
           (snd (fst (mount preloadedProps)))
           (snd (mount preloadedProps) ++ []) 1000 eq_refl eq_refl).
Defined.

(** ** After the load *)

Lemma depsChanged_text (a b : State) :
  value b <> value a \/ title b <> title a -> depsChanged a b = true.
Proof.
  intros H. unfold depsChanged. apply negb_true_iff.
  destruct (String.eqb_spec (value a) (value b)) as [Ev|Ev];
    [|reflexivity].
  destruct (String.eqb_spec (title a) (title b)) as [Et|Et];
    [|reflexivity].
  destruct H as [H|H]; now elim H.
Qed.

(** X10: a note that loads with text is written straight back.  When the
    load of a mounted instance succeeds and the response changes the content
    or the title, the three setter calls of the continuation land in one
    render with [isLoading] already false, the edit effect runs, and a save
    of the values just loaded is armed for 1000 ms later, though nothing was
    typed.  When the response leaves both as they were, no save is
    pending. *)
Theorem loaded_note_is_written_back (p : Props) (evs : list Event)
    (st st' : State) (l l' : list Action) (d : NoteData) (o : Outcome unit) :
  life p evs = Some (st, l) ->
  mounted st = true ->
  step p (LoadDone (JsonParsed {| success := Some true; data := Some d |}))
    st = Some (o, st', l') ->
  (orEmpty (dataContent d) <> value st \/ orEmpty (dataTitle d) <> title st ->
   Debounce.pending (debouncedSave st')
   = Some (now st + 1000,
           (orEmpty (dataContent d), orEmpty (dataTitle d), logo st)))
  /\ (orEmpty (dataContent d) = value st ->
      orEmpty (dataTitle d) = title st ->
      Debounce.pending (debouncedSave st') = None).
Proof.
  intros Hlife Hm. rewrite step_runs.
  destruct (loadInFlight st) eqn:Hfl; [|discriminate].
  destruct (life_flagsTrack p evs st l Hlife) as (_ & H2 & _ & H4).
  destruct (life_consistent p evs st l Hlife) as ((W & _) & _).
  destruct (life_fresh p evs st l Hlife) as (_ & _ & F3 & _).
  assert (H : hasNoteId p = true).
  { destruct (hasNoteId p); [reflexivity|].
    destruct (H4 eq_refl) as [_ Hc]. congruence. }
  assert (N : Debounce.pending (debouncedSave st) = None).
  { apply F3. now rewrite (H2 Hm). }
  set (st0 := withLoadInFlight false st).
  set (st1 := withIsLoading false
                (withTitle (orEmpty (dataTitle d))
                   (withValue (orEmpty (dataContent d)) st0))).
  assert (A : afterLoad
                (JsonParsed {| success := Some true; data := Some d |}) st0
              = st1).
  { unfold afterLoad. subst st0. cbn [mounted withLoadInFlight success data].
    now rewrite Hm. }
  rewrite A. unfold rendered.
  assert (M1 : mounted st1 = true) by exact Hm.
  rewrite M1. cbn [andb]. intros S.
  split.
  - intros Hch. rewrite (depsChanged_text st0 st1 Hch) in S.
    injection S as _ <- _. rewrite arm_debouncedSave, H.
    subst st1 st0. cbn. now rewrite W.
  - intros Hv Ht.
    rewrite (depsChanged_same st0 st1) in S
      by (subst st1 st0; cbn; congruence).
    injection S as _ <- _. exact N.
Qed.

Lemma loaded_note_is_written_back_witness :
  (life backedProps [] = Some (snd (fst (mount backedProps)),
                               snd (mount backedProps) ++ [])
   /\ mounted (snd (fst (mount backedProps))) = true)
  /\ ("milk" <> value (snd (fst (mount backedProps)))
      \/ "Groceries" <> title (snd (fst (mount backedProps))) ->
      Debounce.pending
        (debouncedSave
           (arm backedProps
              (afterLoad sampleNote
                 (withLoadInFlight false (snd (fst (mount backedProps)))))))
      = Some (1000, ("milk", "Groceries", "NoteSpace"))).
Proof.
  split; [now split|].
  exact (proj1 (loaded_note_is_written_back backedProps []
                  (snd (fst (mount backedProps)))
                  (arm backedProps
                     (afterLoad sampleNote
                        (withLoadInFlight false
                           (snd (fst (mount backedProps))))))
                  (snd (mount backedProps) ++ [])
                  [SetValue "milk"; SetTitle "Groceries";
                   SetIsLoading false; Resize;
                   Invoke (Cb "onTitleChange") ["Groceries"];
                   Invoke (Cb "onContentChange") ["milk"]]
                  {| dataTitle := Some "Groceries";
                     dataContent := Some "milk" |}
                  (Ret tt) eq_refl eq_refl eq_refl)).
Defined.

(** ** The console *)






(** ** The editor on screen *)

(** X12: the editor stays usable.  On a mounted instance that is not
    disabled, as soon as no load is pending the render is the editor, showing
    the title and the content of the state and the saving indicator exactly
    when [isSaving] holds, and both inputs take new text; this holds in every
    state a life can reach, so also after a load or a save has failed. *)
Theorem editor_usable_once_loaded (p : Props) (evs : list Event)
    (st : State) (l : list Action) :
  life p evs = Some (st, l) ->
  mounted st = true -> isDisabled p = false -> loadInFlight st = false ->
  render p st = Editor (title st) (value st) (isSaving st)
  /\ (forall s, s <> value st ->
        exists st' l',
          step p (EditContent s) st = Some (Ret tt, st', l')
          /\ value st' = s /\ title st' = title st)
  /\ (forall s, s <> title st ->
        exists st' l',
          step p (EditTitle s) st = Some (Ret tt, st', l')
          /\ title st' = s /\ value st' = value st).
Proof.
  intros Hlife Hm Hd Hfl.
  destruct (life_flagsTrack p evs st l Hlife) as (_ & H2 & _ & _).
  assert (L : isLoading st = false) by now rewrite (H2 Hm).
  assert (R : render p st = Editor (title st) (value st) (isSaving st)).
  { unfold render. now rewrite L, Hd. }
  assert (T : textareaRef p st = true).
  { unfold textareaRef. now rewrite R, Hm. }
  split; [exact R|]. split; intros s Hs.
  - rewrite (step_edit p (EditContent s) st Hs), T.
    do 2 eexists. split; [reflexivity|].
    now rewrite arm_value, arm_title.
  - rewrite (step_edit p (EditTitle s) st Hs), T.
    do 2 eexists. split; [reflexivity|].
    now rewrite arm_value, arm_title.
Qed.

Lemma editor_usable_once_loaded_witness :
  (life backedProps [LoadDone JsonRejected]
   = Some (withIsLoading false
             (withLoadInFlight false (snd (fst (mount backedProps)))),
           snd (mount backedProps)
             ++ [ConsoleError "Failed to load note:" SyntaxError;
                 SetIsLoading false] ++ [])
   /\ isDisabled backedProps = false)
  /\ render backedProps
       (withIsLoading false
          (withLoadInFlight false (snd (fst (mount backedProps)))))
     = Editor "" "" false.
Proof.
  split; [now split|].
  exact (proj1 (editor_usable_once_loaded backedProps [LoadDone JsonRejected]
                  (withIsLoading false
                     (withLoadInFlight false
                        (snd (fst (mount backedProps)))))
                  (snd (mount backedProps)
                     ++ [ConsoleError "Failed to load note:" SyntaxError;
                         SetIsLoading false] ++ [])
                  eq_refl eq_refl eq_refl eq_refl)).
Defined.

(** ** A new logo text *)

Lemma depsChanged_logo (st : State) (g : string) :
  g <> logo st -> depsChanged st (withLogo g st) = true.
Proof.
  intros H. unfold depsChanged. cbn [value title logo withLogo].
  rewrite !String.eqb_refl.
  destruct (String.eqb_spec (logo st) g) as [E|E]; [|reflexivity].
  now elim H.
Qed.

(** X13: the logo text is a dependency of the edit effect.  On a stored
    note that is mounted and loaded, a parent render that hands down a
    different [logoText] arms a save, due 1000 ms later, of the untouched
    content and title together with the new logo text, and sends nothing
    itself; a parent render with the same [logoText] runs no effect and
    leaves the timers alone. *)
Theorem new_logo_text_is_saved (p : Props) (id : string) (evs : list Event)
    (st : State) (l : list Action) (g : option string) :
  noteId p = Some id -> truthy id = true ->
  life p evs = Some (st, l) ->
  mounted st = true -> loadInFlight st = false ->
  let g' := match g with
            | Some s => s
            | None => "NoteSpace"
            end in
  exists st' l',
    step p (ParentRender g) st = Some (Ret tt, st', l')
    /\ requests l' = []
    /\ (value st' = value st /\ title st' = title st /\ logo st' = g')
    /\ (g' <> logo st ->
        Debounce.pending (debouncedSave st')
        = Some (now st + 1000, (value st, title st, g')))
    /\ (g' = logo st ->
        l' = [] /\ debouncedSave st' = debouncedSave st).
Proof.
  intros Hid Htruthy Hlife Hm Hfl g'.
  assert (H : hasNoteId p = true) by exact (truthyOpt_Some _ _ Hid Htruthy).
  destruct (life_flagsTrack p evs st l Hlife) as (_ & H2 & _ & _).
  destruct (life_consistent p evs st l Hlife) as ((W & _) & _).
  assert (L : isLoading st = false) by now rewrite (H2 Hm).
  rewrite step_runs, Hm. fold g'.
  destruct (rendered p st (withLogo g' st) []) as [[o st'] l'] eqn:R.
  destruct (rendered_cells _ _ _ _ _ _ _ R) as (-> & Hv & Ht & Hl & _).
  exists st', l'. split; [reflexivity|].
  split; [exact (requests_rendered _ _ _ _ _ _ _ R)|].
  split; [now rewrite Hv, Ht, Hl|].
  revert R. unfold rendered. cbn [mounted withLogo]. rewrite Hm. cbn [andb].
  split; intros Hg.
  - rewrite (depsChanged_logo st g' Hg) in R. injection R as <- _.
    rewrite arm_debouncedSave, H. cbn [isLoading withLogo]. rewrite L.
    cbn. now rewrite W.
  - rewrite (depsChanged_same st (withLogo g' st)) in R
      by (cbn; congruence).
    injection R as <- <-. now split.
Qed.

Lemma new_logo_text_is_saved_witness :
  (noteId preloadedProps = Some "n1" /\ truthy "n1" = true
   /\ life preloadedProps [] = Some (snd (fst (mount preloadedProps)),
                                     snd (mount preloadedProps) ++ []))
  /\ exists st' l',
       step preloadedProps (ParentRender (Some "MyNotes"))
         (snd (fst (mount preloadedProps))) = Some (Ret tt, st', l')
       /\ requests l' = []
       /\ (value st' = "milk" /\ title st' = "Groceries"
           /\ logo st' = "MyNotes")
       /\ ("MyNotes" <> "NoteSpace" ->
           Debounce.pending (debouncedSave st')
           = Some (1000, ("milk", "Groceries", "MyNotes")))
       /\ ("MyNotes" = "NoteSpace" ->
           l' = []
           /\ debouncedSave st'
              = debouncedSave (snd (fst (mount preloadedProps)))).
Proof.
  split; [now repeat split|].
  exact (new_logo_text_is_saved preloadedProps "n1" []
           (snd (fst (mount preloadedProps)))
           (snd (mount preloadedProps) ++ []) (Some "MyNotes")
           eq_refl eq_refl eq_refl eq_refl eq_refl).
Defined.

(** ** The homepage *)

(** X14: the homepage is notified without any typing.  Without a [noteId]
    and with a content callback, the edit effect of the first commit arms the
    content-change debounce with the initial content and title; no request
    and no setter call is made at mount, and once 500 ms have passed the
    callback is called with these initial values.  (With the debounce helper
    as the spec describes it.) *)
Theorem mount_schedules_homepage_notification (p : Props) (f : Callback) :
  hasNoteId p = false -> onContentChange p = Some f ->
  exists st0 l0,
    mount p = (Ret tt, st0, l0)
    /\ (value st0 = value (initialState p)
        /\ title st0 = title (initialState p))
    /\ (requests l0 = [] /\ filter isSetter l0 = []
        /\ filter isNotification l0 = [])
    /\ Debounce.pending (debouncedContentChange st0)
       = Some (500, (value st0, title st0))
    /\ (forall ms, 500 <= ms ->
          exists st1,
            step p (Elapse ms) st0
            = Some (Ret tt, st1, [Invoke f [value st0; title st0]])).
Proof.
  intros H Hf.
  assert (HL : afterLoadEffect p = initialState p /\ loadEffectLog p = []).
  { unfold afterLoadEffect, loadEffectLog. rewrite H. now split. }
  destruct HL as [HL1 HL2].
  assert (Hpend : Debounce.pending
                    (debouncedContentChange (arm p (initialState p)))
                  = Some (500, (value (arm p (initialState p)),
                                title (arm p (initialState p))))).
  { rewrite arm_debouncedContentChange, arm_value, arm_title, H, Hf.
    reflexivity. }
  assert (Hsave : Debounce.pending (debouncedSave (arm p (initialState p)))
                  = None).
  { rewrite arm_debouncedSave, H. reflexivity. }
  exists (arm p (initialState p)), (effectLog p (initialState p)).
  split; [now rewrite mount_runs, HL1, HL2|].
  split; [now rewrite arm_value, arm_title|].
  split.
  { split; [apply requests_effectLog|].
    unfold effectLog, notifications. rewrite H, Hf.
    destruct (textareaRef p _), (onTitleChange p); now split. }
  split; [exact Hpend|].
  intros ms Hms. rewrite step_runs, (elapsed_contentChange_only _ _ _ Hsave).
  unfold firedContentChange. cbn [now withNow debouncedContentChange].
  rewrite (due_yes _ _ _ _ Hpend) by (rewrite arm_now; cbn; lia).
  rewrite Hf. now eexists.
Qed.

Lemma mount_schedules_homepage_notification_witness :
  hasNoteId homepageProps = false
  /\ exists st0 l0,
       mount homepageProps = (Ret tt, st0, l0)
       /\ Debounce.pending (debouncedContentChange st0)
          = Some (500, (value st0, title st0)).
Proof.
  split; [reflexivity|].
  destruct (mount_schedules_homepage_notification homepageProps
              (Cb "onContentChange") eq_refl eq_refl)
    as (st0 & l0 & Hm & _ & _ & Hp & _).
  now exists st0, l0.
Defined.






